(** * Kotaemon HTTP facade: upload, background indexing, search, listing, users

    A shallow embedding of [fastapi_file_upload.py] and of
    [libs/ktem/ktem/pages/main.py].  Request handlers are functions in a
    small state-and-exception monad over an explicit [World]; the ktem
    library they delegate to is an interface ([Class Ktem]) whose methods
    are arbitrary world transformers that may raise, and Python's
    [str.lower] and [str.strip] are an interface too ([Class PyStr]). *)

From Stdlib Require Import ZArith Lia Bool List.
From Stdlib Require Import Strings.String Strings.Ascii Strings.Byte.
From Stdlib Require Import Numbers.DecimalString.
From stdpp Require Import base gmap strings list option.

Import ListNotations.
Local Open Scope string_scope.
Local Open Scope Z_scope.

(** ** Python [str] operations used by the handlers

    A [string] is text in UTF-8.  Splitting, searching and slicing at the
    one-byte characters [,], [/] and [.] are then the same on bytes as on
    code points.  [Str.lower] and [Str.strip] are the ASCII case mapping
    and the ASCII white space only: they serve to run the handlers on ASCII
    inputs; the handlers themselves take Python's case mapping and
    stripping from the interface [PyStr] below. *)

Module Str.

Definition is_upper (c : ascii) : bool :=
  let n := nat_of_ascii c in (65 <=? n)%nat && (n <=? 90)%nat.

Definition lower_char (c : ascii) : ascii :=
  if is_upper c then ascii_of_nat (nat_of_ascii c + 32) else c.

(** [s.lower()] *)
Fixpoint lower (s : string) : string :=
  match s with
  | EmptyString => EmptyString
  | String c r => String (lower_char c) (lower r)
  end.

(** [c.isspace()]: TAB..CR, FS..US and the blank. *)
Definition isspace (c : ascii) : bool :=
  let n := nat_of_ascii c in
  ((9 <=? n)%nat && (n <=? 13)%nat) || ((28 <=? n)%nat && (n <=? 32)%nat).

Fixpoint lstrip (s : string) : string :=
  match s with
  | EmptyString => EmptyString
  | String c r => if isspace c then lstrip r else s
  end.

Fixpoint rstrip (s : string) : string :=
  match s with
  | EmptyString => EmptyString
  | String c r =>
      match rstrip r with
      | EmptyString => if isspace c then EmptyString else String c EmptyString
      | r' => String c r'
      end
  end.

(** [s.strip()] *)
Definition strip (s : string) : string := rstrip (lstrip s).

(** [s.split(sep)] for a one-character separator: never the empty list. *)
Fixpoint split (sep : ascii) (s : string) : list string :=
  match s with
  | EmptyString => [EmptyString]
  | String c r =>
      if Ascii.eqb c sep then EmptyString :: split sep r
      else match split sep r with
           | [] => [String c EmptyString]
           | h :: t => String c h :: t
           end
  end.

(** [s.rfind(ch)]: index of the last occurrence, [-1] when there is none. *)
Fixpoint rfind (ch : ascii) (s : string) : Z :=
  match s with
  | EmptyString => -1
  | String c r =>
      let k := rfind ch r in
      if 0 <=? k then k + 1 else if Ascii.eqb c ch then 0 else -1
  end.

(** [s[i:]] for [0 <= i] *)
Fixpoint drop (i : nat) (s : string) : string :=
  match i, s with
  | O, _ => s
  | S j, EmptyString => EmptyString
  | S j, String _ r => drop j r
  end.

(** [len(s)] *)
Definition len (s : string) : Z := Z.of_nat (String.length s).

(** [ch in s] *)
Fixpoint contains (ch : ascii) (s : string) : bool :=
  match s with
  | EmptyString => false
  | String c r => Ascii.eqb c ch || contains ch r
  end.

(** [s.startswith(p)] *)
Fixpoint startswith (p s : string) : bool :=
  match p, s with
  | EmptyString, _ => true
  | String _ _, EmptyString => false
  | String a p', String b s' => Ascii.eqb a b && startswith p' s'
  end.

(** [x in xs] for a list of strings *)
Definition mem (x : string) (xs : list string) : bool :=
  existsb (String.eqb x) xs.

(** Truth value of a [str]: the empty string is falsy. *)
Definition truthy (s : string) : bool := negb (String.eqb s "").

End Str.

(** [str.lower()] and [str.strip()] are Unicode-aware in Python (case
    mapping of every script, every Unicode white space).  The handlers
    are written over any two functions; all that is used of them is that
    lowering keeps the empty string empty and nothing else. *)
Class PyStr := {
  lower : string -> string;
  strip : string -> string;
  lower_empty_iff : forall s, lower s = "" <-> s = ""
}.

(** The ASCII functions, for running the handlers on ASCII text. *)
Definition ascii_str : PyStr := {|
  lower := Str.lower;
  strip := Str.strip;
  lower_empty_iff :=
    ltac:(intros [| c r]; split; intros H; try reflexivity; discriminate)
|}.

(** ** [pathlib] on POSIX

    A path is its root (["" ], ["/"] or ["//"]) and its tail, the list of
    components, as [PurePosixPath] keeps them after parsing. *)

Record PurePath := mkPath { root : string; tail : list string }.

Global Instance PurePath_eq_dec : EqDecision PurePath.
Proof. solve_decision. Defined.

Global Instance PurePath_countable : Countable PurePath :=
  inj_countable' (fun p => (root p, tail p)) (fun rt => mkPath rt.1 rt.2)
                 (fun p => match p with mkPath _ _ => eq_refl end).

Module pathlib.

(** [posixpath.splitroot]: exactly two leading slashes are kept as ["//"]. *)
Definition splitroot (s : string) : string :=
  if Str.startswith "/" s then
    if Str.startswith "//" s && negb (Str.startswith "///" s) then "//" else "/"
  else "".

(** A component is kept when it is neither empty nor ["."]. *)
Definition keep (x : string) : bool :=
  negb (String.eqb x "") && negb (String.eqb x ".").

(** [Path(s)] *)
Definition Path (s : string) : PurePath :=
  mkPath (splitroot s) (List.filter keep (Str.split "/" s)).

(** [p.name]: the final component, [""] when the tail is empty. *)
Definition name (p : PurePath) : string := List.last (tail p) "".

(** [p.suffix]: from the last dot of the name, unless that dot is the
    first or the last character. *)
Definition suffix (p : PurePath) : string :=
  let name := name p in
  let i := Str.rfind "." name in
  if (0 <? i) && (i <? Str.len name - 1) then Str.drop (Z.to_nat i) name
  else "".

(** [p / key]: an absolute [key] replaces [p]. *)
Definition truediv (p : PurePath) (key : string) : PurePath :=
  let q := Path key in
  if Str.truthy (root q) then q else mkPath (root p) (tail p ++ tail q).

(** [p.parent] *)
Definition parent (p : PurePath) : PurePath :=
  mkPath (root p) (removelast (tail p)).

End pathlib.

(** ** Values exchanged with the client and the library *)

#[warnings="-register-all"]
Inductive json :=
| JNull
| JBool (b : bool)
| JInt (z : Z)
| JStr (s : string)
| JList (l : list json)
| JObj (o : list (string * json)).

(** An f-string is kept as its pieces: literal text and formatted values. *)
Inductive piece :=
| Lit (s : string)
| FmtStr (s : string)
| FmtInt (z : Z)
| FmtList (l : list string)
| FmtPath (p : PurePath).

Definition fstring := list piece.

(** Exceptions raised by library calls: the class decides which [except]
    clause takes them, [exn_str] is what [str(e)] gives.  A class stands
    for itself and its subclasses; all are subclasses of [Exception]. *)
Inductive ExnClass :=
| IntegrityError
| AttributeError
| OtherException (class_name : string).

Record libexn := mkExn { class_of : ExnClass; exn_str : string }.

(** What leaves a handler: an [HTTPException] it raised itself, or a
    library exception nobody caught. *)
Inductive exn :=
| HTTPException (status_code : Z) (detail : fstring)
| Uncaught (e : libexn).

(** What a session asks of the relational store. *)
Inductive Statement :=
| GetByKey (key : string)
| SelectAll.

(** ** [datetime] *)

Record datetime := mkDatetime {
  year : Z; month : Z; day : Z;
  hour : Z; minute : Z; second : Z; microsecond : Z
}.

Definition decimal (z : Z) : string :=
  NilZero.string_of_uint (N.to_uint (Z.to_N z)).

Fixpoint zeros (n : nat) : string :=
  match n with O => "" | S k => String "0" (zeros k) end.

(** [%0wd] *)
Definition zfill (w : nat) (z : Z) : string :=
  let d := decimal z in zeros (w - String.length d) +:+ d.

(** [dt.isoformat()] of a naive datetime *)
Definition isoformat (dt : datetime) : string :=
  zfill 4 (year dt) +:+ "-" +:+ zfill 2 (month dt) +:+ "-" +:+ zfill 2 (day dt)
  +:+ "T" +:+ zfill 2 (hour dt) +:+ ":" +:+ zfill 2 (minute dt)
  +:+ ":" +:+ zfill 2 (second dt)
  +:+ (if microsecond dt =? 0 then "" else "." +:+ zfill 6 (microsecond dt)).

(** ** The world the handlers run in *)

(** A row of a Source table. *)
Module SourceRecord.
Record t := mk {
  id : string;
  name : string;
  path : string;
  size : Z;
  user : string;
  date_created : datetime;
  note : json
}.
End SourceRecord.

(** The tuple handed to [background_tasks.add_task]. *)
Record IndexingJob := mkJob {
  job_file_id : string;
  job_tmp_path : PurePath;
  job_user_id : string
}.

(** Regular files on disk (directories are implicit), the relational
    store as one list of rows per Source table it can read, what was
    printed, what was logged, and the background tasks scheduled so far. *)
Record World := mkWorld {
  fs : gmap PurePath (list byte);
  db : gmap string (list SourceRecord.t);
  stdout : list fstring;
  log : list string;
  background_tasks : list IndexingJob
}.

Definition set_fs (f : gmap PurePath (list byte)) (w : World) : World :=
  mkWorld f (db w) (stdout w) (log w) (background_tasks w).

(** ** The handler monad *)

Inductive outcome (A : Type) :=
| Return (a : A)
| Raise (e : exn).
Arguments Return {A} a.
Arguments Raise {A} e.

Definition M (A : Type) : Type := World -> outcome A * World.

(** A library call: returns or raises, and may change the world. *)
Definition Ext (A : Type) : Type := World -> (libexn + A) * World.

Definition ret {A} (a : A) : M A := fun w => (Return a, w).

Definition bind {A B} (m : M A) (k : A -> M B) : M B :=
  fun w => match m w with
           | (Return a, w') => k a w'
           | (Raise e, w') => (Raise e, w')
           end.

Definition raise {A} (e : exn) : M A := fun w => (Raise e, w).

(** A library call outside any [try]: its exception escapes. *)
Definition call {A} (c : Ext A) : M A :=
  fun w => match c w with
           | (inr a, w') => (Return a, w')
           | (inl e, w') => (Raise (Uncaught e), w')
           end.

(** A stateless library call. *)
Definition call_pure {A} (r : libexn + A) : M A := call (fun w => (r, w)).

(** [try: x = c  except ...: handler]: the handler runs only for what the
    [try] body raised; what the handler raises is not caught again. *)
Definition try_except {A} (c : Ext A) (handler : libexn -> M A) : M A :=
  fun w => match c w with
           | (inr a, w') => (Return a, w')
           | (inl e, w') => handler e w'
           end.

Declare Scope handler_scope.
Delimit Scope handler_scope with handler.
Notation "x <- c1 ;; c2" := (bind c1 (fun x => c2))
  (at level 100, c1 at next level, right associativity) : handler_scope.
Notation "c1 ;; c2" := (bind c1 (fun _ => c2))
  (at level 100, right associativity) : handler_scope.
Local Open Scope handler_scope.

(** *** Primitive effects *)

(** [p.parent.mkdir(parents=True, exist_ok=True)]: no regular file changes. *)
Definition mkdir (p : PurePath) : M unit := ret tt.

(** [p.write_bytes(data)] *)
Definition write_bytes (p : PurePath) (data : list byte) : M unit :=
  fun w => (Return tt, set_fs (<[p := data]> (fs w)) w).

(** [p.unlink(missing_ok=True)] *)
Definition unlink (p : PurePath) : M unit :=
  fun w => (Return tt, set_fs (delete p (fs w)) w).

(** [p.exists()] *)
Definition exists_ (p : PurePath) : M bool :=
  fun w => (Return (bool_decide (is_Some (fs w !! p))), w).

(** [print(msg)] *)
Definition print (msg : fstring) : M unit :=
  fun w => (Return tt,
            mkWorld (fs w) (db w) (stdout w ++ [msg]) (log w) (background_tasks w)).

(** [logging.exception(msg)] *)
Definition logging_exception (msg : string) : M unit :=
  fun w => (Return tt,
            mkWorld (fs w) (db w) (stdout w) (log w ++ [msg]) (background_tasks w)).

(** [background_tasks.add_task(_background_index, file_id, tmp_path, user_id)] *)
Definition add_task (j : IndexingJob) : M unit :=
  fun w => (Return tt,
            mkWorld (fs w) (db w) (stdout w) (log w) (background_tasks w ++ [j])).

(** ** The ktem library, as the handlers see it

    [FileIndex], its pipelines and their loader live in the ktem packages;
    the handlers only call them.  Pipeline resolution is stateless; every
    other method may change the world and may raise. *)

Class Ktem := {
  DocPipeline : Type;
  IndexPipeline : Type;
  QueryPipeline : Type;
  Docs : Type;
  (** [file_index.get_indexing_pipeline(settings, user_id)] *)
  get_indexing_pipeline : list (string * json) -> string -> libexn + DocPipeline;
  (** [doc_pipeline.Source]: the Source table of the index *)
  DocPipeline_Source : DocPipeline -> string;
  (** [doc_pipeline.route(path)] *)
  route : DocPipeline -> PurePath -> libexn + IndexPipeline;
  (** [index_pipeline.Source], [.FSPath], [.collection_name] *)
  IndexPipeline_Source : IndexPipeline -> string;
  FSPath : IndexPipeline -> PurePath;
  collection_name : IndexPipeline -> string;
  (** [index_pipeline.store_file(path)] *)
  store_file : IndexPipeline -> PurePath -> Ext string;
  (** [index_pipeline.get_id_if_exists(path)] *)
  get_id_if_exists : IndexPipeline -> PurePath -> Ext (option string);
  (** [index_pipeline.loader.load_data(path, extra_info=...)] *)
  load_data : IndexPipeline -> PurePath -> list (string * string) -> Ext Docs;
  (** [index_pipeline.handle_docs(docs, file_id, file_name)], run to exhaustion *)
  handle_docs : IndexPipeline -> Docs -> string -> string -> Ext unit;
  (** [index_pipeline.finish(file_id, path)] *)
  finish : IndexPipeline -> string -> PurePath -> Ext unit;
  (** [file_index.search(query, top_k=..., user_id=...)] *)
  search : string -> Z -> string -> Ext json;
  (** [file_index.get_query_pipeline(settings, user_id)] *)
  get_query_pipeline : list (string * json) -> string -> Ext QueryPipeline;
  (** [pipeline.search(query, top_k)] *)
  pipeline_search : QueryPipeline -> string -> Z -> Ext json;
  (** The exception [ktem.db.engine] raises when a statement cannot be run
      on a table. *)
  engine_error : string -> Statement -> libexn
}.

(** [session.get(Source, key)]: the row with that primary key, if any; a
    table the store cannot read raises the engine's error. *)
Definition session_get `{K : Ktem} (Source : string) (key : string)
    : Ext (option SourceRecord.t) :=
  fun w => match db w !! Source with
           | Some rows =>
               (inr (List.find (fun r => String.eqb (SourceRecord.id r) key) rows), w)
           | None => (inl (engine_error Source (GetByKey key)), w)
           end.

(** [session.exec(select(Source)).all()] *)
Definition select_all `{K : Ktem} (Source : string) : Ext (list SourceRecord.t) :=
  fun w => match db w !! Source with
           | Some rows => (inr rows, w)
           | None => (inl (engine_error Source SelectAll), w)
           end.

(** ** Configuration read from [flowsettings] *)

Record flowsettings := mkSettings {
  INDEX_CONFIG_supported_file_types : string;
  INDEX_CONFIG_max_file_size : Z;
  UPLOAD_TEMP_DIR : string
}.

(** The multipart file of a request: its client-supplied name and body. *)
Record UploadFile := mkUpload {
  filename : string;
  read : list byte
}.

(** ** fastapi_file_upload.py *)

Section Handlers.

Context `{K : Ktem} `{P : PyStr}.
Variable cfg : flowsettings.

(** [[e.strip().lower() for e in types.split(",") if e.strip()]] *)
Definition allowed_exts : list string :=
  List.map (fun e => lower (strip e))
    (List.filter (fun e => Str.truthy (strip e))
       (Str.split "," (INDEX_CONFIG_supported_file_types cfg))).

Definition max_bytes : Z := INDEX_CONFIG_max_file_size cfg * 1000000.

(** [Path(file.filename).name] *)
Definition sanitized (file : UploadFile) : string :=
  pathlib.name (pathlib.Path (filename file)).

(** [Path(filename).suffix.lower()] *)
Definition extension (file : UploadFile) : string :=
  lower (pathlib.suffix (pathlib.Path (sanitized file))).

(** [Path(UPLOAD_TEMP_DIR) / filename] *)
Definition temp_path_of (file : UploadFile) : PurePath :=
  pathlib.truediv (pathlib.Path (UPLOAD_TEMP_DIR cfg)) (sanitized file).

Definition accepted (file_id filename : string) : json :=
  JObj [("status", JStr "accepted");
        ("file_id", JStr file_id);
        ("filename", JStr filename)].

(** The [try: store_file ... except IntegrityError: ... except Exception: ...]
    block of [upload_file]; its value is [file_id]. *)
Definition store_or_dedupe (index_pipeline : IndexPipeline)
    (temp_path : PurePath) : M string :=
  try_except (store_file index_pipeline temp_path)
    (fun e =>
       match class_of e with
       | IntegrityError =>
           existing <- call (get_id_if_exists index_pipeline temp_path) ;;
           match existing with
           | Some id =>
               if Str.truthy id then ret id
               else raise (HTTPException 500
                      [Lit "Duplicate record but could not find existing ID."])
           | None =>
               raise (HTTPException 500
                      [Lit "Duplicate record but could not find existing ID."])
           end
       | _ =>
           unlink temp_path ;;
           logging_exception "Failed to store file" ;;
           raise (HTTPException 500
                    [Lit "Failed to store file: "; FmtStr (exn_str e)])
       end).

Definition upload_file (file : UploadFile) (user_id : string) : M json :=
  let filename := sanitized file in
  let ext := extension file in
  let contents := read file in
  let size := Z.of_nat (List.length contents) in
  if negb (Str.mem ext allowed_exts) then
    raise (HTTPException 400
             [Lit "Unsupported file type: "; FmtStr ext;
              Lit ". Allowed: "; FmtList allowed_exts])
  else if size >? max_bytes then
    raise (HTTPException 400
             [Lit "File too large: "; FmtInt size;
              Lit " bytes (max "; FmtInt max_bytes; Lit ")"])
  else
    let temp_path := temp_path_of file in
    mkdir (pathlib.parent temp_path) ;;
    write_bytes temp_path contents ;;
    doc_pipeline <- call_pure (get_indexing_pipeline [] user_id) ;;
    index_pipeline <- call_pure (route doc_pipeline temp_path) ;;
    file_id <- store_or_dedupe index_pipeline temp_path ;;
    add_task (mkJob file_id temp_path user_id) ;;
    ret (accepted file_id filename).

Definition _background_index (file_id : string) (tmp_path : PurePath)
    (user_id : string) : M unit :=
  doc_pipeline <- call_pure (get_indexing_pipeline [] user_id) ;;
  index_pipeline <- call_pure (route doc_pipeline tmp_path) ;;
  src <- call (session_get (IndexPipeline_Source index_pipeline) file_id) ;;
  match src with
  | None => ret tt
  | Some src =>
      let real_pdf :=
        pathlib.truediv (FSPath index_pipeline) (SourceRecord.path src) in
      present <- exists_ real_pdf ;;
      if negb present then
        print [Lit "[index_failure] file_id="; FmtStr file_id;
               Lit " missing on disk: "; FmtPath real_pdf]
      else
        let extra_info :=
          [("file_name", pathlib.name tmp_path);
           ("file_id", file_id);
           ("collection_name", collection_name index_pipeline)] in
        docs <- call (load_data index_pipeline tmp_path extra_info) ;;
        call (handle_docs index_pipeline docs file_id (pathlib.name tmp_path)) ;;
        call (finish index_pipeline file_id tmp_path)
  end.

Definition search_files (query : string) (top_k : Z) (user_id : string) : M json :=
  results <-
    try_except (search query top_k user_id)
      (fun e =>
         match class_of e with
         | AttributeError =>
             pipeline <- call (get_query_pipeline [] user_id) ;;
             call (pipeline_search pipeline query top_k)
         | _ =>
             raise (HTTPException 500 [Lit "Search failed: "; FmtStr (exn_str e)])
         end) ;;
  ret (JObj [("query", JStr query); ("top_k", JInt top_k); ("results", results)]).

(** One entry of the listing. *)
Definition file_entry (src : SourceRecord.t) : json :=
  JObj [("id", JStr (SourceRecord.id src));
        ("name", JStr (SourceRecord.name src));
        ("path", JStr (SourceRecord.path src));
        ("size", JInt (SourceRecord.size src));
        ("user", JStr (SourceRecord.user src));
        ("created", JStr (isoformat (SourceRecord.date_created src)));
        ("note", SourceRecord.note src)].

Definition list_files (user_id : string) : M json :=
  doc_pipeline <- call_pure (get_indexing_pipeline [] user_id) ;;
  let Source := DocPipeline_Source doc_pipeline in
  rows <-
    try_except (select_all Source)
      (fun e =>
         raise (HTTPException 500 [Lit "Could not list files: "; FmtStr (exn_str e)])) ;;
  ret (JObj [("files", JList (List.map file_entry rows))]).

End Handlers.

(** ** A scripted library

    A test double of the ktem library: every stateful method answers with
    the outcome written in the script and leaves the world alone. *)

(** The error of SQLite behind SQLAlchemy for a table that does not exist. *)
Definition no_such_table (table : string) (stmt : Statement) : libexn :=
  mkExn (OtherException "OperationalError")
        ("(sqlite3.OperationalError) no such table: " +:+ table).

Record Script := mkScript {
  on_store_file : libexn + string;
  on_get_id_if_exists : libexn + option string;
  on_search : libexn + json;
  on_get_query_pipeline : libexn + unit;
  on_pipeline_search : libexn + json
}.

Definition scripted (s : Script) : Ktem := {|
  DocPipeline := string;
  IndexPipeline := string;
  QueryPipeline := unit;
  Docs := unit;
  get_indexing_pipeline := fun _ user_id => inr user_id;
  DocPipeline_Source := fun _ => "index__1__source";
  route := fun dp _ => inr dp;
  IndexPipeline_Source := fun _ => "index__1__source";
  FSPath := fun _ => pathlib.Path "/data/files";
  collection_name := fun _ => "index_1";
  store_file := fun _ _ w => (on_store_file s, w);
  get_id_if_exists := fun _ _ w => (on_get_id_if_exists s, w);
  load_data := fun _ _ _ w => (inr tt, w);
  handle_docs := fun _ _ _ _ w => (inr tt, w);
  finish := fun _ _ _ w => (inr tt, w);
  search := fun _ _ _ w => (on_search s, w);
  get_query_pipeline := fun _ _ w => (on_get_query_pipeline s, w);
  pipeline_search := fun _ _ _ w => (on_pipeline_search s, w);
  engine_error := no_such_table
|}.

Definition no_search_attribute : libexn :=
  mkExn AttributeError "'FileIndex' object has no attribute 'search'".

Definition unique_violation : libexn :=
  mkExn IntegrityError "UNIQUE constraint failed: index__1__source.name".

Definition disk_full : libexn :=
  mkExn (OtherException "OSError") "[Errno 28] No space left on device".

Definition demo_settings : flowsettings :=
  mkSettings ".pdf, .TXT ,,.md" 1 "/tmp/uploads".

Definition empty_world : World := mkWorld ∅ ∅ [] [] [].

Definition pdf_bytes : list byte := [x25; x50; x44; x46].

Definition report_pdf : UploadFile := mkUpload "../docs/Report.PDF" pdf_bytes.


(** ** libs/ktem/ktem/pages/main.py: user creation *)

Module User.
Record t := mk {
  id : string;
  username : string;
  admin : bool;
  username_lower : string;
  password : string
}.
End User.

Module UserCreate.
Record t := mk {
  username : string;
  password : string;
  admin : option bool
}.
End UserCreate.

Module UserRead.
Record t := mk {
  id : string;
  username : string;
  admin : bool
}.

(** [UserRead.from_orm(user)] *)
Definition from_orm (user : User.t) : t :=
  mk (User.id user) (User.username user) (User.admin user).

(** The body FastAPI sends for [response_model=UserRead]. *)
Definition to_json (u : t) : json :=
  JObj [("id", JStr (id u)); ("username", JStr (username u)); ("admin", JBool (admin u))].
End UserRead.

Module main.
Section CreateUser.

(** [hashlib.sha256(s.encode()).hexdigest()] *)
Variable sha256_hexdigest : string -> string.
Context `{P : PyStr}.

Definition HTTP_201_CREATED : Z := 201.
Definition HTTP_400_BAD_REQUEST : Z := 400.

(** [session.add(user); session.commit()]: the primary key [id] and the
    unique column [username_lower] are enforced by the table. *)
Definition commit (user : User.t) (table : list User.t) : libexn + list User.t :=
  if existsb (fun u => String.eqb (User.id u) (User.id user)) table then
    inl (mkExn IntegrityError "UNIQUE constraint failed: user.id")
  else if existsb (fun u => String.eqb (User.username_lower u)
                                       (User.username_lower user)) table then
    inl (mkExn IntegrityError "UNIQUE constraint failed: user.username_lower")
  else inr (table ++ [user])%list.

(** [create_user(user_in)]; [uuid4] is the value the [id] default factory
    draws for the new row.  An [admin] left null takes the column default. *)
Definition create_user (user_in : UserCreate.t) (uuid4 : string)
    (table : list User.t) : outcome UserRead.t * list User.t :=
  let user_in_lower := lower (UserCreate.username user_in) in
  let hashed := sha256_hexdigest (UserCreate.password user_in) in
  let existing :=
    List.find (fun u => String.eqb (User.username_lower u) user_in_lower) table in
  match existing with
  | Some _ =>
      (Raise (HTTPException HTTP_400_BAD_REQUEST
                [Lit "Username '"; FmtStr (UserCreate.username user_in);
                 Lit "' already exists."]), table)
  | None =>
      let user :=
        User.mk uuid4 (UserCreate.username user_in)
                (default false (UserCreate.admin user_in))
                user_in_lower hashed in
      match commit user table with
      | inl e => (Raise (Uncaught e), table)
      | inr table' => (Return (UserRead.from_orm user), table')
      end
  end.

End CreateUser.
End main.

(** ** What the client receives *)

Inductive body :=
| Json (j : json)
| Detail (d : fstring)
| InternalServerError.

(** The response FastAPI builds from a handler's outcome; [ok] is the
    status code declared on the route. *)
Definition response (ok : Z) (o : outcome json) : Z * body :=
  match o with
  | Return j => (ok, Json j)
  | Raise (HTTPException status_code detail) => (status_code, Detail detail)
  | Raise (Uncaught _) => (500, InternalServerError)
  end.

Definition fmap_outcome {A B} (f : A -> B) (o : outcome A) : outcome B :=
  match o with
  | Return a => Return (f a)
  | Raise e => Raise e
  end.

(** Keys of a JSON object. *)
Definition keys (j : json) : list string :=
  match j with
  | JObj o => List.map fst o
  | _ => []
  end.

(** ** Sample libraries, rows and worlds *)

Definition backend_down : libexn :=
  mkExn (OtherException "RuntimeError") "vector store unavailable".

(** [store_file] hits the uniqueness constraint, the lookup finds the row. *)
Definition dedupe_lib : Ktem :=
  scripted (mkScript (inl unique_violation) (inr (Some "f-001"))
                     (inl no_search_attribute) (inr tt) (inr (JList []))).

(** [store_file] hits the uniqueness constraint, the lookup finds nothing. *)
Definition lost_row_lib : Ktem :=
  scripted (mkScript (inl unique_violation) (inr None)
                     (inl no_search_attribute) (inr tt) (inr (JList []))).

(** [store_file] fails for a reason of its own. *)
Definition full_disk_lib : Ktem :=
  scripted (mkScript (inl disk_full) (inr None)
                     (inl no_search_attribute) (inr tt) (inr (JList []))).

(** No direct search on the index, and a query pipeline that fails. *)
Definition failing_fallback_lib : Ktem :=
  scripted (mkScript (inr "f-001") (inr None)
                     (inl no_search_attribute) (inr tt) (inl backend_down)).

Definition bobs_report : SourceRecord.t :=
  SourceRecord.mk "f-001" "Report.PDF" "9f2c" 4 "bob"
                  (mkDatetime 2024 3 9 7 5 0 0) (JObj []).

(** One row in the Source table; its content-addressed file is not on disk. *)
Definition indexed_world : World :=
  mkWorld ∅ {[ "index__1__source" := [bobs_report] ]} [] [] [].

Definition malware_exe : UploadFile := mkUpload "setup.EXE" pdf_bytes.

Definition demo_sha256 (s : string) : string := "sha256:" +:+ s.

Definition alice : User.t :=
  User.mk "u-1" "Alice" false "alice" (demo_sha256 "secret").

(** ** A storage gateway

    The storage layer behind [store_file] and [get_id_if_exists] lives in
    ktem's index pipeline, outside the handlers; the scenarios at the end
    run the handlers against the gateway below. *)

Module Gateway.

Definition table : string := "index__1__source".

Definition store_dir : PurePath := pathlib.Path "/data/files".

(** Modelled from the spec: the content address of a file (section 3, "a
    content-derived identity"), here the byte string itself. *)
Definition content_address (data : list byte) : string :=
  string_of_list_byte data.

Definition no_such_file : libexn :=
  mkExn (OtherException "FileNotFoundError") "[Errno 2] No such file or directory".

Definition same_content (user addr : string) (r : SourceRecord.t) : bool :=
  String.eqb (SourceRecord.path r) addr && String.eqb (SourceRecord.user r) user.

Definition next_id (rows : list SourceRecord.t) : string :=
  "src-" +:+ decimal (Z.of_nat (S (List.length rows))).

(** Modelled from the spec: [storeOrDedupe]'s insert (sections 3 and 4.1).
    The row's [path] is the content address, [(contentAddress, owningUser)]
    is unique, a conflicting insert raises and leaves the table as it was,
    and the bytes are copied to the content-addressed location. *)
Definition store (user : string) (now : datetime) (p : PurePath) : Ext string :=
  fun w =>
    match fs w !! p with
    | None => (inl no_such_file, w)
    | Some data =>
        let addr := content_address data in
        let rows := default [] (db w !! table) in
        if existsb (same_content user addr) rows then
          (inl (mkExn IntegrityError "UNIQUE constraint failed: path, user"), w)
        else
          let row :=
            SourceRecord.mk (next_id rows) (pathlib.name p) addr
                            (Z.of_nat (List.length data)) user now (JObj []) in
          (inr (SourceRecord.id row),
           mkWorld (<[pathlib.truediv store_dir addr := data]> (fs w))
                   (<[table := (rows ++ [row])%list]> (db w))
                   (stdout w) (log w) (background_tasks w))
    end.

(** Modelled from the spec: the lookup of an existing record's id by
    content (section 4.1). *)
Definition lookup (user : string) (p : PurePath) : Ext (option string) :=
  fun w =>
    match fs w !! p with
    | None => (inr None, w)
    | Some data =>
        let rows := default [] (db w !! table) in
        (inr (SourceRecord.id <$>
                List.find (same_content user (content_address data)) rows), w)
    end.

(** The library with this gateway; a pipeline is the user it was built for. *)
Definition lib (now : datetime) : Ktem := {|
  DocPipeline := string;
  IndexPipeline := string;
  QueryPipeline := unit;
  Docs := unit;
  get_indexing_pipeline := fun _ user_id => inr user_id;
  DocPipeline_Source := fun _ => table;
  route := fun dp _ => inr dp;
  IndexPipeline_Source := fun _ => table;
  FSPath := fun _ => store_dir;
  collection_name := fun _ => "index_1";
  store_file := fun user p => store user now p;
  get_id_if_exists := lookup;
  load_data := fun _ _ _ w => (inr tt, w);
  handle_docs := fun _ _ _ _ w => (inr tt, w);
  finish := fun _ _ _ w => (inr tt, w);
  search := fun _ _ _ w => (inl no_search_attribute, w);
  get_query_pipeline := fun _ _ w => (inr tt, w);
  pipeline_search := fun _ _ _ w => (inr (JList []), w);
  engine_error := no_such_table
|}.

End Gateway.

(** A library whose [store_file] loses the temp file before it fails. *)
Definition vanishing_lib : Ktem := {|
  DocPipeline := string;
  IndexPipeline := string;
  QueryPipeline := unit;
  Docs := unit;
  get_indexing_pipeline := fun _ user_id => inr user_id;
  DocPipeline_Source := fun _ => "index__1__source";
  route := fun dp _ => inr dp;
  IndexPipeline_Source := fun _ => "index__1__source";
  FSPath := fun _ => pathlib.Path "/data/files";
  collection_name := fun _ => "index_1";
  store_file := fun _ p w => (inl disk_full, set_fs (delete p (fs w)) w);
  get_id_if_exists := fun _ _ w => (inr None, w);
  load_data := fun _ _ _ w => (inr tt, w);
  handle_docs := fun _ _ _ _ w => (inr tt, w);
  finish := fun _ _ _ w => (inr tt, w);
  search := fun _ _ _ w => (inl no_search_attribute, w);
  get_query_pipeline := fun _ _ w => (inr tt, w);
  pipeline_search := fun _ _ _ w => (inr (JList []), w);
  engine_error := no_such_table
|}.

Definition noon : datetime := mkDatetime 2024 3 9 12 0 0 0.

(** ** Vocabulary of the statements *)

Section Vocabulary.

Context `{K : Ktem} `{P : PyStr}.
Variable cfg : flowsettings.

(** Both checks of [upload_file] pass. *)
Definition passes_validation (file : UploadFile) : Prop :=
  Str.mem (extension file) (allowed_exts cfg) = true /\
  Z.of_nat (List.length (read file)) <= max_bytes cfg.

(** The world right after [temp_path.write_bytes(contents)]. *)
Definition written (file : UploadFile) (w : World) : World :=
  set_fs (<[temp_path_of cfg file := read file]> (fs w)) w.

(** Pipeline resolution for this upload yields [ip]. *)
Definition resolves (path : PurePath) (user_id : string)
    (ip : IndexPipeline) : Prop :=
  exists dp, get_indexing_pipeline [] user_id = inr dp /\ route dp path = inr ip.

(** The library's storage calls leave the file at [p] as it is. *)
Definition lib_keeps (p : PurePath) : Prop :=
  forall ip q w,
    fs (store_file ip q w).2 !! p = fs w !! p /\
    fs (get_id_if_exists ip q w).2 !! p = fs w !! p.

(** A diagnostic was emitted between [w] and [w']. *)
Definition emitted (w w' : World) : Prop :=
  stdout w' <> stdout w \/ log w' <> log w.

End Vocabulary.

(** The detail-less failure of the dedupe lookup. *)
Definition duplicate_without_id : exn :=
  HTTPException 500 [Lit "Duplicate record but could not find existing ID."].

(** The body of a successful search. *)
Definition search_result (query : string) (top_k : Z) (results : json) : json :=
  JObj [("query", JStr query); ("top_k", JInt top_k); ("results", results)].

(** The username column invariant of the user table. *)
Definition lower_column_ok `{P : PyStr} (table : list User.t) : Prop :=
  Forall (fun u => User.username_lower u = lower (User.username u)) table.

(** Some row carries this username up to case. *)
Definition taken `{P : PyStr} (name : string) (table : list User.t) : Prop :=
  exists u, In u table /\ lower (User.username u) = lower name.

(** ** libs/ktem/ktem/reasoning/agen_rag.py: SimpleQueryComponent *)

Module agen_rag.

Inductive Message :=
| SystemMessage (content : string)
| HumanMessage (content : string).

Record Document := mkDocument { channel : string; content : string }.

(** What iterating a generator gives: the items it yields, then either
    its normal end or the exception that stops it. *)
Record Generated (A : Type) := mkGenerated {
  yielded : list A;
  stopped_by : option libexn
}.
Arguments mkGenerated {A} yielded stopped_by.
Arguments yielded {A} g.
Arguments stopped_by {A} g.

(** [self.llm.stream(messages)], read through [chunk.text] *)
Class ChatLLM := {
  llm_stream : list Message -> Generated string
}.

(** [SimpleQueryComponent.stream(message, conv_id, history)] *)
Definition stream `{ChatLLM} (message conv_id : string)
    (history : list (string * string)) : Generated Document :=
  let messages :=
    [SystemMessage "You are a helpful assistant"; HumanMessage message] in
  let response := llm_stream messages in
  mkGenerated (List.map (fun chunk => mkDocument "chat" chunk) (yielded response))
              (stopped_by response).

(** [SimpleQueryComponent.get_info()] *)
Definition get_info : json :=
  JObj [("id", JStr "direct_llm");
        ("name", JStr "Direct LLM");
        ("description",
         JStr "Directly answers questions using the LLM without any retrieval")].

(** The first [get_user_settings] of the class body. *)
Definition get_user_settings_shadowed : json := JObj [].

(** The choices of the LLM dropdown; [options] is what
    [llms.options().keys()] gives, or the exception it raises. *)
Definition llm_choices (options : libexn + list string) : list (string * string) :=
  match options with
  | inr names => ([("(default)", "")] ++ List.map (fun name => (name, name)) names)%list
  | inl _ => [("(default)", "")]
  end.

(** The second [get_user_settings], the one the class keeps: the settings
    and what [logger.exception] recorded. *)
Definition get_user_settings (options : libexn + list string)
    : json * list fstring :=
  (JObj [("llm",
          JObj [("name", JStr "Language Model");
                ("value", JStr "");
                ("component", JStr "dropdown");
                ("choices",
                 JList (List.map (fun c => JList [JStr c.1; JStr c.2])
                                 (llm_choices options)));
                ("special_type", JStr "llm");
                ("info", JStr "The language model to use for generating answers")]);
         ("system_prompt",
          JObj [("name", JStr "System Prompt");
                ("value", JStr "You are a helpful assistant");
                ("info", JStr "Initial instructions to give the LLM")])],
   match options with
   | inr _ => []
   | inl e => [[Lit "Failed to get LLM options: "; FmtStr (exn_str e)]]
   end).

End agen_rag.

(** [d[k]] on a JSON object: the first binding of the key. *)
Definition dict_get (k : string) (j : json) : option json :=
  match j with
  | JObj o => snd <$> List.find (fun kv => String.eqb kv.1 k) o
  | _ => None
  end.

(** ** Paths through [upload_file] *)

Section Paths.

Context `{K : Ktem} `{P : PyStr}.
Variable cfg : flowsettings.
Variable file : UploadFile.
Variable user_id : string.

(** [w] after [add_task] for [file_id]. *)
Definition scheduled (file_id : string) (w : World) : World :=
  mkWorld (fs w) (db w) (stdout w) (log w)
          (background_tasks w ++ [mkJob file_id (temp_path_of cfg file) user_id]).

(** [w] after the clean-up of the [except Exception] clause. *)
Definition cleaned (w : World) : World :=
  mkWorld (delete (temp_path_of cfg file) (fs w)) (db w) (stdout w)
          (log w ++ ["Failed to store file"]) (background_tasks w).

(** The ways a request can go, each with the library answers that select
    it and the outcome and world it ends in. *)
Inductive upload_path (w : World) : outcome json * World -> Prop :=
| path_rejected detail :
    ~ passes_validation cfg file ->
    upload_path w (Raise (HTTPException 400 detail), w)
| path_no_pipeline e :
    passes_validation cfg file ->
    get_indexing_pipeline [] user_id = inl e ->
    upload_path w (Raise (Uncaught e), written cfg file w)
| path_no_route dp e :
    passes_validation cfg file ->
    get_indexing_pipeline [] user_id = inr dp ->
    route dp (temp_path_of cfg file) = inl e ->
    upload_path w (Raise (Uncaught e), written cfg file w)
| path_stored ip file_id w2 :
    passes_validation cfg file ->
    resolves (temp_path_of cfg file) user_id ip ->
    store_file ip (temp_path_of cfg file) (written cfg file w) = (inr file_id, w2) ->
    upload_path w (Return (accepted file_id (sanitized file)), scheduled file_id w2)
| path_store_failed ip e w2 :
    passes_validation cfg file ->
    resolves (temp_path_of cfg file) user_id ip ->
    store_file ip (temp_path_of cfg file) (written cfg file w) = (inl e, w2) ->
    class_of e <> IntegrityError ->
    upload_path w
      (Raise (HTTPException 500 [Lit "Failed to store file: "; FmtStr (exn_str e)]),
       cleaned w2)
| path_deduped ip e w2 file_id w3 :
    passes_validation cfg file ->
    resolves (temp_path_of cfg file) user_id ip ->
    store_file ip (temp_path_of cfg file) (written cfg file w) = (inl e, w2) ->
    class_of e = IntegrityError ->
    get_id_if_exists ip (temp_path_of cfg file) w2 = (inr (Some file_id), w3) ->
    file_id <> "" ->
    upload_path w (Return (accepted file_id (sanitized file)), scheduled file_id w3)
| path_lost ip e w2 existing w3 :
    passes_validation cfg file ->
    resolves (temp_path_of cfg file) user_id ip ->
    store_file ip (temp_path_of cfg file) (written cfg file w) = (inl e, w2) ->
    class_of e = IntegrityError ->
    get_id_if_exists ip (temp_path_of cfg file) w2 = (inr existing, w3) ->
    existing = None \/ existing = Some "" ->
    upload_path w (Raise duplicate_without_id, w3)
| path_lookup_failed ip e w2 e' w3 :
    passes_validation cfg file ->
    resolves (temp_path_of cfg file) user_id ip ->
    store_file ip (temp_path_of cfg file) (written cfg file w) = (inl e, w2) ->
    class_of e = IntegrityError ->
    get_id_if_exists ip (temp_path_of cfg file) w2 = (inl e', w3) ->
    upload_path w (Raise (Uncaught e'), w3).

(** The library's storage calls leave the task queue as it is. *)
Definition lib_keeps_tasks : Prop :=
  forall ip q w,
    background_tasks (store_file ip q w).2 = background_tasks w /\
    background_tasks (get_id_if_exists ip q w).2 = background_tasks w.

(** The loader, the chunk handler and the finalisation leave the file at
    [p] as it is. *)
Definition indexing_keeps (p : PurePath) : Prop :=
  (forall ip q info w, fs (load_data ip q info w).2 !! p = fs w !! p) /\
  (forall ip docs file_id file_name w,
     fs (handle_docs ip docs file_id file_name w).2 !! p = fs w !! p) /\
  (forall ip file_id q w, fs (finish ip file_id q w).2 !! p = fs w !! p).

(** The [extra_info] the indexer hands to the loader. *)
Definition extra_info_of (ip : IndexPipeline) (file_id : string)
    (tmp_path : PurePath) : list (string * string) :=
  [("file_name", pathlib.name tmp_path);
   ("file_id", file_id);
   ("collection_name", collection_name ip)].

End Paths.

(** ** A staged library

    A test double for the indexing stages: routing and each stage answer
    as staged, and each stage that runs prints its name. *)

Record Stages := mkStages {
  on_get_indexing_pipeline : option libexn;
  on_route : option libexn;
  on_get_id_raises : option libexn;
  on_load_data : libexn + unit;
  on_handle_docs : libexn + unit;
  on_finish : libexn + unit
}.

Definition traced (stage : string) (w : World) : World :=
  mkWorld (fs w) (db w) (stdout w ++ [[Lit stage]]) (log w) (background_tasks w).

Definition staged (g : Stages) : Ktem := {|
  DocPipeline := string;
  IndexPipeline := string;
  QueryPipeline := unit;
  Docs := unit;
  get_indexing_pipeline := fun _ user_id =>
    match on_get_indexing_pipeline g with Some e => inl e | None => inr user_id end;
  DocPipeline_Source := fun _ => "index__1__source";
  route := fun dp _ => match on_route g with Some e => inl e | None => inr dp end;
  IndexPipeline_Source := fun _ => "index__1__source";
  FSPath := fun _ => pathlib.Path "/data/files";
  collection_name := fun _ => "index_1";
  store_file := fun _ _ w => (inl unique_violation, w);
  get_id_if_exists := fun _ _ w =>
    (match on_get_id_raises g with Some e => inl e | None => inr (Some "f-001") end, w);
  load_data := fun _ _ _ w => (on_load_data g, traced "load_data" w);
  handle_docs := fun _ _ _ _ w => (on_handle_docs g, traced "handle_docs" w);
  finish := fun _ _ _ w => (on_finish g, traced "finish" w);
  search := fun _ _ _ w => (inl no_search_attribute, w);
  get_query_pipeline := fun _ _ w => (inr tt, w);
  pipeline_search := fun _ _ _ w => (inr (JList []), w);
  engine_error := no_such_table
|}.

Definition no_reader : libexn :=
  mkExn (OtherException "NotImplementedError") "No supported pipeline to index Report.PDF".

Definition index_not_started : libexn :=
  mkExn (OtherException "KeyError") "'Source'".

Definition smooth : Stages := mkStages None None None (inr tt) (inr tt) (inr tt).

(** Routing finds no reader for the file. *)
Definition unroutable : Stages :=
  mkStages None (Some no_reader) None (inr tt) (inr tt) (inr tt).

(** The index has no pipeline to give. *)
Definition not_started : Stages :=
  mkStages (Some index_not_started) None None (inr tt) (inr tt) (inr tt).

(** The lookup of the existing id raises. *)
Definition lookup_down : Stages :=
  mkStages None None (Some backend_down) (inr tt) (inr tt) (inr tt).

(** The chunk handler fails after the loader succeeded. *)
Definition handler_down : Stages :=
  mkStages None None None (inr tt) (inl backend_down) (inr tt).

(** Another client's file of the same name. *)
Definition other_report : UploadFile := mkUpload "inbox/Report.PDF" [x00; x01].

(** [store_file] succeeds. *)
Definition storing_lib : Ktem :=
  scripted (mkScript (inr "f-001") (inr None)
                     (inl no_search_attribute) (inr tt) (inr (JList []))).

(** The row of [bobs_report] with its content-addressed file on disk. *)
Definition stored_world : World :=
  mkWorld {[ mkPath "/" ["data"; "files"; "9f2c"] := pdf_bytes ]}
          {[ "index__1__source" := [bobs_report] ]} [] [] [].

Definition report_tmp : PurePath := pathlib.Path "/tmp/uploads/Report.PDF".

(** An LLM that streams two chunks. *)
Definition two_chunks : agen_rag.ChatLLM :=
  {| agen_rag.llm_stream := fun _ => agen_rag.mkGenerated ["Hel"; "lo"] None |}.

(** The uniqueness invariants of the user table. *)
Definition unique_users (table : list User.t) : Prop :=
  List.NoDup (List.map User.id table) /\
  List.NoDup (List.map User.username_lower table).

(** * Properties *)

(** ** Upload Orchestrator *)

Section UploadFacts.

Context `{K : Ktem} `{P : PyStr}.
Variable cfg : flowsettings.

Lemma upload_file_unsupported file user_id w :
  Str.mem (extension file) (allowed_exts cfg) = false ->
  upload_file cfg file user_id w =
    (Raise (HTTPException 400
              [Lit "Unsupported file type: "; FmtStr (extension file);
               Lit ". Allowed: "; FmtList (allowed_exts cfg)]), w).
Proof.
  intros Hext. unfold upload_file. rewrite Hext. reflexivity.
Qed.

Lemma upload_file_too_large file user_id w :
  Str.mem (extension file) (allowed_exts cfg) = true ->
  Z.of_nat (List.length (read file)) > max_bytes cfg ->
  upload_file cfg file user_id w =
    (Raise (HTTPException 400
              [Lit "File too large: "; FmtInt (Z.of_nat (List.length (read file)));
               Lit " bytes (max "; FmtInt (max_bytes cfg); Lit ")"]), w).
Proof.
  intros Hext Hsize. unfold upload_file. rewrite Hext. simpl.
  destruct (Z.gtb_spec (Z.of_nat (List.length (read file))) (max_bytes cfg));
    [reflexivity | lia].
Qed.

(** Past validation and pipeline resolution, the handler is the store block
    run on the world that holds the temp file, then the scheduling. *)
Lemma upload_file_reaches_store file user_id ip w :
  passes_validation cfg file ->
  resolves (temp_path_of cfg file) user_id ip ->
  upload_file cfg file user_id w =
    bind (store_or_dedupe ip (temp_path_of cfg file))
         (fun file_id =>
            bind (add_task (mkJob file_id (temp_path_of cfg file) user_id))
                 (fun _ => ret (accepted file_id (sanitized file))))
         (written cfg file w).
Proof.
  intros [Hext Hsize] (dp & Hdp & Hroute). unfold upload_file.
  rewrite Hext. simpl.
  destruct (Z.gtb_spec (Z.of_nat (List.length (read file))) (max_bytes cfg));
    [lia |].
  unfold bind at 1 2 3 4. unfold mkdir, ret, write_bytes, call_pure, call.
  rewrite Hdp, Hroute. reflexivity.
Qed.

(** C1: an upload whose extension is not allowed, or whose body is larger
    than the configured maximum, is refused with status 400 and the world is
    returned untouched: both checks come before the temp file is written,
    so no file is created. *)
Theorem upload_file_rejects_before_any_write file user_id w :
  Str.mem (extension file) (allowed_exts cfg) = false \/
  Z.of_nat (List.length (read file)) > max_bytes cfg ->
  exists detail,
    upload_file cfg file user_id w = (Raise (HTTPException 400 detail), w) /\
    fs (upload_file cfg file user_id w).2 = fs w /\
    fs (upload_file cfg file user_id w).2 !! temp_path_of cfg file
      = fs w !! temp_path_of cfg file.
Proof.
  intros Hbad.
  destruct (Str.mem (extension file) (allowed_exts cfg)) eqn:Hext.
  - destruct Hbad as [Hbad | Hbad]; [discriminate |].
    eexists. rewrite (upload_file_too_large file user_id w Hext Hbad).
    repeat split; reflexivity.
  - eexists. rewrite (upload_file_unsupported file user_id w Hext).
    repeat split; reflexivity.
Qed.

End UploadFacts.

Section StoreFacts.

Context `{K : Ktem} `{P : PyStr}.
Variable cfg : flowsettings.
Variable file : UploadFile.
Variable user_id : string.
Variable ip : IndexPipeline.
Variable w : World.

Hypothesis Hvalid : passes_validation cfg file.
Hypothesis Hresolves : resolves (temp_path_of cfg file) user_id ip.

Lemma written_holds_temp_file :
  fs (written cfg file w) !! (temp_path_of cfg file) = Some (read file).
Proof. unfold written, set_fs. simpl. apply lookup_insert_eq. Qed.

Lemma upload_file_dedupe_found e w2 id w3 :
  store_file ip (temp_path_of cfg file) (written cfg file w) = (inl e, w2) ->
  class_of e = IntegrityError ->
  get_id_if_exists ip (temp_path_of cfg file) w2 = (inr (Some id), w3) ->
  Str.truthy id = true ->
  upload_file cfg file user_id w =
    (Return (accepted id (sanitized file)),
     mkWorld (fs w3) (db w3) (stdout w3) (log w3)
             (background_tasks w3 ++ [mkJob id (temp_path_of cfg file) user_id])).
Proof.
  intros Hstore Hclass Hlookup Hid.
  rewrite (upload_file_reaches_store cfg file user_id ip w Hvalid Hresolves).
  fold (temp_path_of cfg file). unfold store_or_dedupe, bind at 1, try_except.
  rewrite Hstore, Hclass. unfold bind at 1, call. rewrite Hlookup, Hid.
  reflexivity.
Qed.

Lemma upload_file_dedupe_not_found e w2 existing w3 :
  store_file ip (temp_path_of cfg file) (written cfg file w) = (inl e, w2) ->
  class_of e = IntegrityError ->
  get_id_if_exists ip (temp_path_of cfg file) w2 = (inr existing, w3) ->
  existing = None \/ existing = Some "" ->
  upload_file cfg file user_id w = (Raise duplicate_without_id, w3).
Proof.
  intros Hstore Hclass Hlookup Hnone.
  rewrite (upload_file_reaches_store cfg file user_id ip w Hvalid Hresolves).
  fold (temp_path_of cfg file). unfold store_or_dedupe, bind at 1, try_except.
  rewrite Hstore, Hclass. unfold bind at 1, call. rewrite Hlookup.
  destruct Hnone as [-> | ->]; reflexivity.
Qed.

Lemma upload_file_store_failed e w2 :
  store_file ip (temp_path_of cfg file) (written cfg file w) = (inl e, w2) ->
  class_of e <> IntegrityError ->
  upload_file cfg file user_id w =
    (Raise (HTTPException 500 [Lit "Failed to store file: "; FmtStr (exn_str e)]),
     mkWorld (delete (temp_path_of cfg file) (fs w2)) (db w2) (stdout w2)
             (log w2 ++ ["Failed to store file"]) (background_tasks w2)).
Proof.
  intros Hstore Hclass.
  rewrite (upload_file_reaches_store cfg file user_id ip w Hvalid Hresolves).
  fold (temp_path_of cfg file). unfold store_or_dedupe, bind at 1, try_except.
  rewrite Hstore.
  destruct (class_of e) eqn:Hc; [congruence | |]; reflexivity.
Qed.

(** C2: when [store_file] hits the uniqueness constraint, the handler asks
    [get_id_if_exists] for the existing record; a found id (record ids are
    non-empty strings) is returned in a 200 answer made of status
    "accepted", that file id and the sanitised filename, and the indexing
    job is scheduled for that id; when nothing is found the request fails
    with status 500.  Either way the handler itself stores nothing more:
    the tables and the files are those the lookup left. *)
Theorem upload_file_dedupes_on_unique_violation e w2 existing w3 :
  store_file ip (temp_path_of cfg file) (written cfg file w) = (inl e, w2) ->
  class_of e = IntegrityError ->
  get_id_if_exists ip (temp_path_of cfg file) w2 = (inr existing, w3) ->
  (forall id, existing = Some id -> id <> "" ->
     response 200 (upload_file cfg file user_id w).1
       = (200, Json (JObj [("status", JStr "accepted"); ("file_id", JStr id);
                           ("filename", JStr (sanitized file))])) /\
     background_tasks (upload_file cfg file user_id w).2
       = (background_tasks w3 ++ [mkJob id (temp_path_of cfg file) user_id])%list) /\
  (existing = None ->
     response 200 (upload_file cfg file user_id w).1
       = (500, Detail [Lit "Duplicate record but could not find existing ID."]) /\
     background_tasks (upload_file cfg file user_id w).2 = background_tasks w3) /\
  db (upload_file cfg file user_id w).2 = db w3 /\
  fs (upload_file cfg file user_id w).2 = fs w3.
Proof.
  intros Hstore Hclass Hlookup.
  destruct existing as [id |]; [destruct (Str.truthy id) eqn:Hid |].
  - rewrite (upload_file_dedupe_found e w2 id w3 Hstore Hclass Hlookup Hid).
    split; [| split; [| split]]; try reflexivity; try discriminate.
    intros id' [= <-] _. split; reflexivity.
  - assert (Hid' : id = "").
    { unfold Str.truthy in Hid. apply negb_false_iff in Hid.
      now apply String.eqb_eq in Hid. }
    subst id.
    rewrite (upload_file_dedupe_not_found e w2 _ w3 Hstore Hclass Hlookup
               (or_intror eq_refl)).
    split; [| split; [| split]]; try reflexivity; try discriminate.
    intros id' [= <-] Hid'. now contradiction Hid'.
  - rewrite (upload_file_dedupe_not_found e w2 _ w3 Hstore Hclass Hlookup
               (or_introl eq_refl)).
    split; [| split; [| split]]; try reflexivity.
    + intros id' [=].
    + intros _. split; reflexivity.
Qed.

(** C6: when [store_file] fails with anything but a uniqueness violation,
    the handler unlinks the temp file (whether or not it is still there),
    logs the failure and fails with status 500 and a detail that carries
    [str(e)] of the underlying error. *)
Theorem upload_file_storage_error_cleans_up e w2 :
  store_file ip (temp_path_of cfg file) (written cfg file w) = (inl e, w2) ->
  class_of e <> IntegrityError ->
  response 200 (upload_file cfg file user_id w).1 =
    (500, Detail [Lit "Failed to store file: "; FmtStr (exn_str e)]) /\
  fs (upload_file cfg file user_id w).2 = delete (temp_path_of cfg file) (fs w2) /\
  fs (upload_file cfg file user_id w).2 !! (temp_path_of cfg file) = None /\
  log (upload_file cfg file user_id w).2 = (log w2 ++ ["Failed to store file"])%list /\
  db (upload_file cfg file user_id w).2 = db w2.
Proof.
  intros Hstore Hclass.
  rewrite (upload_file_store_failed e w2 Hstore Hclass). simpl.
  repeat split. apply lookup_delete_eq.
Qed.

(** C10: on the path where the uniqueness violation is followed by a lookup
    that finds nothing, the handler fails with status 500 and stops there:
    the final world is the one the lookup left, no unlink is performed, and
    with a library that leaves the temp file alone the uploaded bytes are
    still at the temp path. *)
Theorem upload_file_dedupe_failure_keeps_temp_file e w2 existing w3 :
  store_file ip (temp_path_of cfg file) (written cfg file w) = (inl e, w2) ->
  class_of e = IntegrityError ->
  get_id_if_exists ip (temp_path_of cfg file) w2 = (inr existing, w3) ->
  existing = None \/ existing = Some "" ->
  lib_keeps (temp_path_of cfg file) ->
  upload_file cfg file user_id w = (Raise duplicate_without_id, w3) /\
  fs (upload_file cfg file user_id w).2 !! (temp_path_of cfg file) = Some (read file).
Proof.
  intros Hstore Hclass Hlookup Hnone Hkeeps.
  rewrite (upload_file_dedupe_not_found e w2 existing w3 Hstore Hclass Hlookup Hnone).
  split; [reflexivity |]. simpl.
  destruct (Hkeeps ip (temp_path_of cfg file) w2) as [_ Hk2].
  destruct (Hkeeps ip (temp_path_of cfg file) (written cfg file w)) as [Hk1 _].
  rewrite Hlookup in Hk2. rewrite Hstore in Hk1. simpl in Hk1, Hk2.
  rewrite Hk2, Hk1. apply written_holds_temp_file.
Qed.

End StoreFacts.

(** ** File Listing Service *)

Section ListingFacts.

Context `{K : Ktem} `{P : PyStr}.

Lemma list_files_run user_id dp w :
  get_indexing_pipeline [] user_id = inr dp ->
  list_files user_id w =
    match db w !! DocPipeline_Source dp with
    | Some rows => (Return (JObj [("files", JList (List.map file_entry rows))]), w)
    | None =>
        (Raise (HTTPException 500
                  [Lit "Could not list files: ";
                   FmtStr (exn_str (engine_error (DocPipeline_Source dp) SelectAll))]), w)
    end.
Proof.
  intros Hdp. unfold list_files, bind at 1, call_pure, call. rewrite Hdp.
  unfold bind, try_except, select_all.
  destruct (db w !! DocPipeline_Source dp); reflexivity.
Qed.

(** C5: for a fixed world, two users whose pipelines carry the index's
    Source table get the same listing; it holds one entry per row of the
    table, whoever the row's [user] is. *)
Theorem list_files_ignores_user_id user1 user2 dp1 dp2 w :
  get_indexing_pipeline [] user1 = inr dp1 ->
  get_indexing_pipeline [] user2 = inr dp2 ->
  DocPipeline_Source dp1 = DocPipeline_Source dp2 ->
  list_files user1 w = list_files user2 w /\
  forall rows,
    db w !! DocPipeline_Source dp1 = Some rows ->
    (list_files user1 w).1 = Return (JObj [("files", JList (List.map file_entry rows))]).
Proof.
  intros H1 H2 Hsame.
  rewrite (list_files_run user1 dp1 w H1), (list_files_run user2 dp2 w H2).
  rewrite <- Hsame. split; [reflexivity |].
  intros rows ->. reflexivity.
Qed.

End ListingFacts.

(** ** Background Indexer *)

Section IndexerFacts.

Context `{K : Ktem} `{P : PyStr}.

Lemma find_by_id_none (rows : list SourceRecord.t) file_id :
  (forall r, In r rows -> SourceRecord.id r <> file_id) ->
  List.find (fun r => String.eqb (SourceRecord.id r) file_id) rows = None.
Proof.
  induction rows as [| r rows IH]; intros Hnone; simpl; [reflexivity |].
  destruct (String.eqb_spec (SourceRecord.id r) file_id) as [Heq | _].
  - exfalso. apply (Hnone r); [now left | exact Heq].
  - apply IH. intros r' Hr'. apply Hnone. now right.
Qed.

Lemma background_index_reaches_lookup file_id tmp_path user_id ip w rows :
  resolves tmp_path user_id ip ->
  db w !! IndexPipeline_Source ip = Some rows ->
  _background_index file_id tmp_path user_id w =
    match List.find (fun r => String.eqb (SourceRecord.id r) file_id) rows with
    | None => (Return tt, w)
    | Some src =>
        let real_pdf := pathlib.truediv (FSPath ip) (SourceRecord.path src) in
        if negb (bool_decide (is_Some (fs w !! real_pdf))) then
          print [Lit "[index_failure] file_id="; FmtStr file_id;
                 Lit " missing on disk: "; FmtPath real_pdf] w
        else
          bind (call (load_data ip tmp_path
                        [("file_name", pathlib.name tmp_path);
                         ("file_id", file_id);
                         ("collection_name", collection_name ip)]))
               (fun docs =>
                  bind (call (handle_docs ip docs file_id (pathlib.name tmp_path)))
                       (fun _ => call (finish ip file_id tmp_path))) w
    end.
Proof.
  intros (dp & Hdp & Hroute) Htable. unfold _background_index.
  unfold bind at 1 2 3, call_pure, call. rewrite Hdp, Hroute.
  unfold session_get. rewrite Htable.
  destruct (List.find _ rows) as [src |]; [| reflexivity].
  unfold bind at 1, exists_.
  destruct (negb (bool_decide (is_Some (fs w !! _)))); reflexivity.
Qed.

(** With no row for [file_id] in the Source table, the indexer returns
    with the world as it was. *)
Lemma background_index_missing_record_returns_silently
    file_id tmp_path user_id ip w rows :
  resolves tmp_path user_id ip ->
  db w !! IndexPipeline_Source ip = Some rows ->
  (forall r, In r rows -> SourceRecord.id r <> file_id) ->
  _background_index file_id tmp_path user_id w = (Return tt, w) /\
  ~ emitted w (_background_index file_id tmp_path user_id w).2.
Proof.
  intros Hres Htable Hnone.
  rewrite (background_index_reaches_lookup file_id tmp_path user_id ip w rows
             Hres Htable).
  rewrite (find_by_id_none rows file_id Hnone).
  split; [reflexivity |]. simpl. intros [H | H]; now apply H.
Qed.

(** C7: when the row exists but the file at [FSPath / src.path] is not on
    disk, the indexer prints the [index_failure] line and returns without
    raising; the tables are untouched, and the row is still listed by
    [list_files] for any user whose pipeline carries the same Source table. *)
Theorem background_index_missing_file_keeps_record
    file_id tmp_path user_id ip w rows src :
  resolves tmp_path user_id ip ->
  db w !! IndexPipeline_Source ip = Some rows ->
  List.find (fun r => String.eqb (SourceRecord.id r) file_id) rows = Some src ->
  fs w !! pathlib.truediv (FSPath ip) (SourceRecord.path src) = None ->
  (_background_index file_id tmp_path user_id w).1 = Return tt /\
  stdout (_background_index file_id tmp_path user_id w).2 =
    (stdout w ++ [[Lit "[index_failure] file_id="; FmtStr file_id;
                   Lit " missing on disk: ";
                   FmtPath (pathlib.truediv (FSPath ip) (SourceRecord.path src))]])%list /\
  db (_background_index file_id tmp_path user_id w).2 = db w /\
  fs (_background_index file_id tmp_path user_id w).2 = fs w /\
  forall reader dp,
    get_indexing_pipeline [] reader = inr dp ->
    DocPipeline_Source dp = IndexPipeline_Source ip ->
    (list_files reader (_background_index file_id tmp_path user_id w).2).1
      = Return (JObj [("files", JList (List.map file_entry rows))]) /\
    In (file_entry src) (List.map file_entry rows).
Proof.
  intros Hres Htable Hfind Hmissing.
  rewrite (background_index_reaches_lookup file_id tmp_path user_id ip w rows
             Hres Htable).
  rewrite Hfind. cbv zeta. rewrite Hmissing.
  rewrite bool_decide_eq_false_2 by (intros [x Hx]; discriminate).
  unfold print. simpl.
  split; [reflexivity |]. split; [reflexivity |].
  split; [reflexivity |]. split; [reflexivity |].
  intros reader dp Hdp Hsame. split.
  - rewrite (list_files_run reader dp _ Hdp). simpl.
    rewrite Hsame, Htable. reflexivity.
  - apply in_map. apply (find_some _ _ Hfind).
Qed.

End IndexerFacts.

(** ** Query Service *)

Section SearchFacts.

Context `{K : Ktem} `{P : PyStr}.

(** The direct capability is tried first; its result is the answer. *)
Lemma search_files_direct query top_k user_id w results w1 :
  search query top_k user_id w = (inr results, w1) ->
  search_files query top_k user_id w = (Return (search_result query top_k results), w1).
Proof.
  intros Hs. unfold search_files, bind, try_except. rewrite Hs. reflexivity.
Qed.

(** Any failure of the direct attempt other than [AttributeError] becomes
    a 500 with the cause. *)
Lemma search_files_direct_failure query top_k user_id w e w1 :
  search query top_k user_id w = (inl e, w1) ->
  class_of e <> AttributeError ->
  search_files query top_k user_id w =
    (Raise (HTTPException 500 [Lit "Search failed: "; FmtStr (exn_str e)]), w1).
Proof.
  intros Hs Hc. unfold search_files, bind at 1, try_except. rewrite Hs.
  destruct (class_of e); [reflexivity | congruence | reflexivity].
Qed.

(** On [AttributeError] the query pipeline of the user answers. *)
Lemma search_files_fallback query top_k user_id w e w1 pipeline w2 results w3 :
  search query top_k user_id w = (inl e, w1) ->
  class_of e = AttributeError ->
  get_query_pipeline [] user_id w1 = (inr pipeline, w2) ->
  pipeline_search pipeline query top_k w2 = (inr results, w3) ->
  search_files query top_k user_id w = (Return (search_result query top_k results), w3).
Proof.
  intros Hs Hc Hq Hp. unfold search_files, bind at 1, try_except. rewrite Hs, Hc.
  unfold bind, call. rewrite Hq, Hp. reflexivity.
Qed.

(** A failure inside the fallback is raised from within the [except
    AttributeError] clause, where the sibling [except Exception] clause
    does not apply: it leaves the handler as it is. *)
Lemma search_files_fallback_failure query top_k user_id w e w1 pipeline w2 e' w3 :
  search query top_k user_id w = (inl e, w1) ->
  class_of e = AttributeError ->
  get_query_pipeline [] user_id w1 = (inr pipeline, w2) ->
  pipeline_search pipeline query top_k w2 = (inl e', w3) ->
  search_files query top_k user_id w = (Raise (Uncaught e'), w3).
Proof.
  intros Hs Hc Hq Hp. unfold search_files, bind at 1, try_except. rewrite Hs, Hc.
  unfold bind, call. rewrite Hq, Hp. reflexivity.
Qed.

(** The same holds when building the query pipeline is what fails. *)
Lemma search_files_fallback_construction_failure query top_k user_id w e w1 e' w2 :
  search query top_k user_id w = (inl e, w1) ->
  class_of e = AttributeError ->
  get_query_pipeline [] user_id w1 = (inl e', w2) ->
  search_files query top_k user_id w = (Raise (Uncaught e'), w2).
Proof.
  intros Hs Hc Hq. unfold search_files, bind at 1, try_except. rewrite Hs, Hc.
  unfold bind, call. rewrite Hq. reflexivity.
Qed.

End SearchFacts.

(** ** Filename sanitisation *)

Section PathFacts.

Context `{P : PyStr}.


Lemma split_no_sep sep s x :
  In x (Str.split sep s) -> Str.contains sep x = false.
Proof.
  revert x. induction s as [| c r IH]; intros x Hx; simpl in Hx.
  - destruct Hx as [<- | []]. reflexivity.
  - destruct (Ascii.eqb c sep) eqn:Hc.
    + destruct Hx as [<- | Hx]; [reflexivity | now apply IH].
    + destruct (Str.split sep r) as [| h t] eqn:Hsplit.
      * destruct Hx as [<- | []]. simpl. now rewrite Hc.
      * destruct Hx as [<- | Hx].
        -- simpl. rewrite Hc. simpl. apply IH. now left.
        -- apply IH. now right.
Qed.

Lemma split_without_sep sep s :
  Str.contains sep s = false -> Str.split sep s = [s].
Proof.
  induction s as [| c r IH]; simpl; intros Hs; [reflexivity |].
  apply orb_false_iff in Hs. destruct Hs as [Hc Hr].
  rewrite Hc, (IH Hr). reflexivity.
Qed.


Lemma last_default_or_in {A} (l : list A) d : List.last l d = d \/ In (List.last l d) l.
Proof.
  induction l as [| x l IH]; [now left |].
  destruct l as [| y l]; [right; now left |].
  destruct IH as [IH | IH].
  - change (List.last (x :: y :: l) d) with (List.last (y :: l) d).
    destruct (exists_last (l := y :: l)) as (l' & z & Hl); [discriminate |].
    right. right. rewrite Hl. rewrite last_last. apply in_or_app. right. now left.
  - right. right. exact IH.
Qed.

Lemma name_component s :
  pathlib.name (pathlib.Path s) = "" \/
  (In (pathlib.name (pathlib.Path s)) (Str.split "/" s) /\
   pathlib.keep (pathlib.name (pathlib.Path s)) = true).
Proof.
  unfold pathlib.name, pathlib.Path. simpl.
  destruct (last_default_or_in (List.filter pathlib.keep (Str.split "/" s)) "")
    as [H | H]; [now left | right].
  now apply filter_In in H.
Qed.

Lemma name_no_slash s : Str.contains "/" (pathlib.name (pathlib.Path s)) = false.
Proof.
  destruct (name_component s) as [-> | [Hin _]]; [reflexivity |].
  exact (split_no_sep _ _ _ Hin).
Qed.

Lemma no_slash_splitroot s : Str.contains "/" s = false -> pathlib.splitroot s = "".
Proof.
  destruct s as [| c r]; [reflexivity |]. simpl. intros H.
  apply orb_false_iff in H. destruct H as [Hc _].
  unfold pathlib.splitroot.
  assert (Hs : Str.startswith "/" (String c r) = false).
  { change (Str.startswith "/" (String c r)) with (Ascii.eqb "/" c && true).
    rewrite Ascii.eqb_sym, Hc. reflexivity. }
  now rewrite Hs.
Qed.

(** A single kept component parses to itself. *)
Lemma Path_of_component x :
  Str.contains "/" x = false -> pathlib.keep x = true ->
  pathlib.Path x = mkPath "" [x].
Proof.
  intros Hx Hk. unfold pathlib.Path.
  rewrite (no_slash_splitroot x Hx), (split_without_sep _ x Hx). simpl.
  now rewrite Hk.
Qed.

Lemma Path_name_idempotent s :
  pathlib.name (pathlib.Path (pathlib.name (pathlib.Path s)))
  = pathlib.name (pathlib.Path s).
Proof.
  destruct (name_component s) as [-> | [_ Hk]]; [reflexivity |].
  now rewrite (Path_of_component _ (name_no_slash s) Hk).
Qed.

Lemma suffix_needs_three_chars p :
  pathlib.suffix p <> "" ->
  pathlib.name p <> "" /\ pathlib.name p <> "." /\ pathlib.name p <> "..".
Proof.
  intros Hs. repeat split; intros Hn; apply Hs; unfold pathlib.suffix;
    rewrite Hn; reflexivity.
Qed.

Lemma lower_empty s : lower s = "" -> s = "".
Proof. apply lower_empty_iff. Qed.

Lemma mem_In x xs : Str.mem x xs = true -> In x xs.
Proof.
  unfold Str.mem. intros H. apply existsb_exists in H.
  destruct H as (y & Hy & Heq). apply String.eqb_eq in Heq. now subst.
Qed.

Lemma allowed_exts_nonempty cfg x : In x (allowed_exts cfg) -> x <> "".
Proof.
  unfold allowed_exts. intros H. apply in_map_iff in H.
  destruct H as (e & <- & He). apply filter_In in He. destruct He as [_ Ht].
  intros Hl. apply lower_empty in Hl. unfold Str.truthy in Ht.
  rewrite Hl in Ht. discriminate.
Qed.

(** An upload that passes the extension check has a plain file name. *)
Lemma validated_name_is_plain cfg file :
  Str.mem (extension file) (allowed_exts cfg) = true ->
  pathlib.keep (sanitized file) = true /\ sanitized file <> "..".
Proof.
  intros Hmem. apply mem_In, allowed_exts_nonempty in Hmem.
  assert (Hsuf : pathlib.suffix (pathlib.Path (sanitized file)) <> "").
  { intros Hs. apply Hmem. unfold extension. rewrite Hs.
    now apply lower_empty_iff. }
  apply suffix_needs_three_chars in Hsuf. unfold sanitized in *.
  rewrite Path_name_idempotent in Hsuf. destruct Hsuf as (H0 & H1 & H2).
  split; [| exact H2]. unfold pathlib.keep.
  destruct (String.eqb_spec (pathlib.name (pathlib.Path (filename file))) "");
    [contradiction |].
  destruct (String.eqb_spec (pathlib.name (pathlib.Path (filename file))) ".");
    [contradiction | reflexivity].
Qed.

Lemma temp_path_is_child cfg file :
  Str.mem (extension file) (allowed_exts cfg) = true ->
  temp_path_of cfg file =
    mkPath (root (pathlib.Path (UPLOAD_TEMP_DIR cfg)))
           (tail (pathlib.Path (UPLOAD_TEMP_DIR cfg)) ++ [sanitized file]).
Proof.
  intros Hmem. destruct (validated_name_is_plain cfg file Hmem) as [Hk _].
  unfold temp_path_of, pathlib.truediv.
  rewrite (Path_of_component (sanitized file) (name_no_slash _) Hk).
  reflexivity.
Qed.


End PathFacts.

(** ** User creation *)

Section UserFacts.

Variable sha256_hexdigest : string -> string.
Context `{P : PyStr}.

Lemma find_lower_taken name table :
  lower_column_ok table ->
  (exists u,
     List.find (fun u => String.eqb (User.username_lower u) (lower name)) table
       = Some u) <-> taken name table.
Proof.
  intros Hok. split.
  - intros (u & Hu). apply find_some in Hu. destruct Hu as [Hin Heq].
    apply String.eqb_eq in Heq. exists u. split; [exact Hin |].
    rewrite <- Heq. symmetry.
    exact (proj1 (List.Forall_forall _ _) Hok u Hin).
  - intros (u & Hin & Heq).
    destruct (List.find _ table) as [u' |] eqn:Hfind; [now exists u' |].
    exfalso. pose proof (find_none _ _ Hfind u Hin) as Hno. simpl in Hno.
    rewrite (proj1 (List.Forall_forall _ _) Hok u Hin), Heq in Hno.
    now rewrite String.eqb_refl in Hno.
Qed.

Lemma existsb_lower_false name table :
  List.find (fun u => String.eqb (User.username_lower u) name) table = None ->
  existsb (fun u => String.eqb (User.username_lower u) name) table = false.
Proof.
  induction table as [| u table IH]; simpl; [reflexivity |].
  destruct (String.eqb (User.username_lower u) name); [discriminate |].
  exact IH.
Qed.

Lemma existsb_id_false id table :
  (forall u, In u table -> User.id u <> id) ->
  existsb (fun u => String.eqb (User.id u) id) table = false.
Proof.
  induction table as [| u table IH]; simpl; intros Hfresh; [reflexivity |].
  destruct (String.eqb_spec (User.id u) id) as [Heq | _].
  - exfalso. apply (Hfresh u); [now left | exact Heq].
  - apply IH. intros u' Hu'. apply Hfresh. now right.
Qed.

(** The invariant is kept by every successful creation. *)
Lemma create_user_keeps_lower_column user_in uuid4 table :
  lower_column_ok table ->
  lower_column_ok (main.create_user sha256_hexdigest user_in uuid4 table).2.
Proof.
  intros Hok. unfold main.create_user.
  destruct (List.find _ table); [exact Hok |].
  unfold main.commit. simpl.
  destruct (existsb _ table); [exact Hok |].
  destruct (existsb _ table); [exact Hok |]. simpl.
  apply Forall_app. split; [exact Hok |]. constructor; [reflexivity | constructor].
Qed.

(** C9: on a user table whose lowercase column mirrors the usernames,
    creation is refused with status 400 exactly when some row has the
    requested username up to case, that is, the same image under Python's
    [str.lower], whatever that function does to the text.  Otherwise, with
    a fresh id drawn for the row, the answer is 201 with the row's id, the
    username as typed and the admin flag, the row is appended with its
    password hashed, and the response body has the keys id, username and
    admin only. *)
Theorem create_user_duplicate_iff user_in uuid4 table :
  lower_column_ok table ->
  ((exists detail,
      response main.HTTP_201_CREATED
        (fmap_outcome UserRead.to_json
           (main.create_user sha256_hexdigest user_in uuid4 table).1)
      = (400, Detail detail))
   <-> taken (UserCreate.username user_in) table) /\
  (~ taken (UserCreate.username user_in) table ->
   (forall u, In u table -> User.id u <> uuid4) ->
   let user :=
     User.mk uuid4 (UserCreate.username user_in)
             (default false (UserCreate.admin user_in))
             (lower (UserCreate.username user_in))
             (sha256_hexdigest (UserCreate.password user_in)) in
   main.create_user sha256_hexdigest user_in uuid4 table
     = (Return (UserRead.mk uuid4 (UserCreate.username user_in) (User.admin user)),
        (table ++ [user])%list) /\
   response main.HTTP_201_CREATED
     (fmap_outcome UserRead.to_json
        (main.create_user sha256_hexdigest user_in uuid4 table).1)
     = (201, Json (JObj [("id", JStr uuid4);
                         ("username", JStr (UserCreate.username user_in));
                         ("admin", JBool (User.admin user))])) /\
   ~ In "password"
       (keys (UserRead.to_json
                (UserRead.mk uuid4 (UserCreate.username user_in) (User.admin user))))).
Proof.
  intros Hok.
  pose proof (find_lower_taken (UserCreate.username user_in) table Hok) as Hiff.
  unfold main.create_user.
  destruct (List.find _ table) as [u |] eqn:Hfind.
  - split.
    + split; [intros _; apply Hiff; now exists u |].
      intros _. eexists. reflexivity.
    + intros Hnot. exfalso. apply Hnot, Hiff. now exists u.
  - assert (Hfree : ~ taken (UserCreate.username user_in) table).
    { intros Ht. apply Hiff in Ht. destruct Ht as (u & Hu). discriminate. }
    split.
    + split; [| intros Ht; contradiction].
      intros (detail & Hd). exfalso.
      unfold main.commit in Hd. simpl in Hd.
      destruct (existsb _ table); [discriminate |].
      destruct (existsb _ table); discriminate.
    + intros _ Hfresh. unfold main.commit. simpl.
      rewrite (existsb_id_false uuid4 table Hfresh).
      rewrite (existsb_lower_false _ table Hfind). simpl.
      repeat split. intros [H | [H | [H | []]]]; discriminate.
Qed.

End UserFacts.


(** * Further properties of the handlers *)

(** ** Upload: every request follows one of the paths *)

Section UploadPaths.

Context `{K : Ktem} `{P : PyStr}.
Variable cfg : flowsettings.

Lemma not_passes_cases file :
  ~ passes_validation cfg file ->
  Str.mem (extension file) (allowed_exts cfg) = false \/
  Z.of_nat (List.length (read file)) > max_bytes cfg.
Proof.
  intros Hnot. destruct (Str.mem (extension file) (allowed_exts cfg)) eqn:Hmem;
    [| now left].
  right. destruct (Z_le_gt_dec (Z.of_nat (List.length (read file))) (max_bytes cfg))
    as [Hle | Hgt]; [| exact Hgt].
  exfalso. apply Hnot. now split.
Qed.

Lemma passes_dec file : passes_validation cfg file \/ ~ passes_validation cfg file.
Proof.
  unfold passes_validation.
  destruct (Str.mem (extension file) (allowed_exts cfg));
    [| right; intros [H _]; discriminate].
  destruct (Z_le_gt_dec (Z.of_nat (List.length (read file))) (max_bytes cfg));
    [left; now split | right; intros [_ H]; lia].
Qed.

(** The handler always ends as one of the paths describes. *)
Lemma upload_file_follows_path file user_id w :
  upload_path cfg file user_id w (upload_file cfg file user_id w).
Proof.
  destruct (passes_dec file) as [Hv | Hn].
  - destruct (get_indexing_pipeline [] user_id) as [e | dp] eqn:Hdp.
    { replace (upload_file cfg file user_id w)
        with (Raise (A := json) (Uncaught e), written cfg file w).
      - now apply path_no_pipeline.
      - destruct Hv as [Hext Hsize]. unfold upload_file. rewrite Hext. simpl.
        destruct (Z.gtb_spec (Z.of_nat (List.length (read file))) (max_bytes cfg));
          [lia |].
        unfold bind at 1 2 3, mkdir, ret, write_bytes, call_pure, call.
        now rewrite Hdp. }
    destruct (route dp (temp_path_of cfg file)) as [e | ip] eqn:Hroute.
    { replace (upload_file cfg file user_id w)
        with (Raise (A := json) (Uncaught e), written cfg file w).
      - now apply (path_no_route cfg file user_id w dp).
      - destruct Hv as [Hext Hsize]. unfold upload_file. rewrite Hext. simpl.
        destruct (Z.gtb_spec (Z.of_nat (List.length (read file))) (max_bytes cfg));
          [lia |].
        unfold bind at 1 2 3 4, mkdir, ret, write_bytes, call_pure, call.
        now rewrite Hdp, Hroute. }
    assert (Hres : resolves (temp_path_of cfg file) user_id ip)
      by (exists dp; now split).
    rewrite (upload_file_reaches_store cfg file user_id ip w Hv Hres).
    unfold store_or_dedupe, bind at 1, try_except.
    destruct (store_file ip (temp_path_of cfg file) (written cfg file w))
      as [[e | file_id] w2] eqn:Hstore.
    + destruct (class_of e) eqn:Hclass.
      * unfold bind at 1, call.
        destruct (get_id_if_exists ip (temp_path_of cfg file) w2)
          as [[e' | existing] w3] eqn:Hlookup.
        -- now apply (path_lookup_failed cfg file user_id w ip e w2 e' w3).
        -- destruct existing as [id |].
           ++ destruct (Str.truthy id) eqn:Hid.
              ** apply (path_deduped cfg file user_id w ip e w2 id w3); try assumption.
                 intros ->. discriminate.
              ** apply (path_lost cfg file user_id w ip e w2 (Some id) w3);
                   try assumption.
                 right. unfold Str.truthy in Hid. apply negb_false_iff in Hid.
                 apply String.eqb_eq in Hid. now subst.
           ++ apply (path_lost cfg file user_id w ip e w2 None w3); try assumption.
              now left.
      * apply (path_store_failed cfg file user_id w ip e w2); try assumption.
        congruence.
      * apply (path_store_failed cfg file user_id w ip e w2); try assumption.
        congruence.
    + now apply (path_stored cfg file user_id w ip file_id w2).
  - destruct (not_passes_cases file Hn) as [Hext | Hsize].
    + rewrite (upload_file_unsupported cfg file user_id w Hext).
      now apply path_rejected.
    + destruct (Str.mem (extension file) (allowed_exts cfg)) eqn:Hmem.
      * rewrite (upload_file_too_large cfg file user_id w Hmem Hsize).
        now apply path_rejected.
      * rewrite (upload_file_unsupported cfg file user_id w Hmem).
        now apply path_rejected.
Qed.

Lemma written_tasks file w :
  background_tasks (written cfg file w) = background_tasks w.
Proof. reflexivity. Qed.

Lemma written_bytes file w :
  fs (written cfg file w) !! temp_path_of cfg file = Some (read file).
Proof. unfold written, set_fs. simpl. apply lookup_insert_eq. Qed.

(** With a library that leaves the temp path alone, an accepted upload
    ends with the uploaded bytes at the temp path. *)
Lemma accepted_bytes_in_place file user_id w j :
  lib_keeps (temp_path_of cfg file) ->
  (upload_file cfg file user_id w).1 = Return j ->
  fs (upload_file cfg file user_id w).2 !! temp_path_of cfg file = Some (read file).
Proof.
  intros Hk Hret.
  destruct (upload_file_follows_path file user_id w)
    as [d Hn | e Hv He | dp e Hv Hdp He | ip id w2 Hv Hres Hs
        | ip e w2 Hv Hres Hs Hc | ip e w2 id w3 Hv Hres Hs Hc Hl Hid
        | ip e w2 ex w3 Hv Hres Hs Hc Hl Hex | ip e w2 e' w3 Hv Hres Hs Hc Hl];
    simpl in Hret; try discriminate; simpl.
  - destruct (Hk ip (temp_path_of cfg file) (written cfg file w)) as [H1 _].
    rewrite Hs in H1. simpl in H1. rewrite H1. apply lookup_insert_eq.
  - destruct (Hk ip (temp_path_of cfg file) (written cfg file w)) as [H1 _].
    destruct (Hk ip (temp_path_of cfg file) w2) as [_ H2].
    rewrite Hs in H1. rewrite Hl in H2. simpl in H1, H2.
    rewrite H2, H1. apply lookup_insert_eq.
Qed.

(** X1: when validation passes, the pipeline resolves and [store_file]
    returns an id, the answer is "accepted" with that id and the sanitised
    name, and the handler's only further effect is one job for that id, the
    temp path and the user at the end of the task queue. *)
Theorem upload_file_accepts_and_schedules file user_id ip w file_id w2 :
  passes_validation cfg file ->
  resolves (temp_path_of cfg file) user_id ip ->
  store_file ip (temp_path_of cfg file) (written cfg file w) = (inr file_id, w2) ->
  response 200 (upload_file cfg file user_id w).1
    = (200, Json (JObj [("status", JStr "accepted"); ("file_id", JStr file_id);
                        ("filename", JStr (sanitized file))])) /\
  background_tasks (upload_file cfg file user_id w).2
    = (background_tasks w2 ++ [mkJob file_id (temp_path_of cfg file) user_id])%list /\
  fs (upload_file cfg file user_id w).2 = fs w2 /\
  db (upload_file cfg file user_id w).2 = db w2 /\
  log (upload_file cfg file user_id w).2 = log w2 /\
  stdout (upload_file cfg file user_id w).2 = stdout w2.
Proof.
  intros Hv Hres Hstore.
  assert (Hrun : upload_file cfg file user_id w
                 = (Return (accepted file_id (sanitized file)),
                    scheduled cfg file user_id file_id w2)).
  { rewrite (upload_file_reaches_store cfg file user_id ip w Hv Hres).
    unfold store_or_dedupe, bind at 1, try_except. now rewrite Hstore. }
  rewrite Hrun. repeat split.
Qed.

(** X2: pipeline resolution happens after the temp file is written and
    outside the [try]: when [get_indexing_pipeline] or [route] raises, the
    error leaves the handler uncaught (a bare 500), the uploaded bytes stay
    at the temp path and no job is scheduled. *)
Theorem upload_file_resolution_failure_leaves_temp_file file user_id w e :
  passes_validation cfg file ->
  get_indexing_pipeline [] user_id = inl e \/
  (exists dp, get_indexing_pipeline [] user_id = inr dp /\
              route dp (temp_path_of cfg file) = inl e) ->
  upload_file cfg file user_id w = (Raise (Uncaught e), written cfg file w) /\
  response 200 (upload_file cfg file user_id w).1 = (500, InternalServerError) /\
  fs (upload_file cfg file user_id w).2 !! temp_path_of cfg file = Some (read file) /\
  background_tasks (upload_file cfg file user_id w).2 = background_tasks w.
Proof.
  intros [Hext Hsize] Hfail.
  assert (Hrun : upload_file cfg file user_id w
                 = (Raise (Uncaught e), written cfg file w)).
  { unfold upload_file. rewrite Hext. simpl.
    destruct (Z.gtb_spec (Z.of_nat (List.length (read file))) (max_bytes cfg));
      [lia |].
    unfold bind at 1 2 3 4, mkdir, ret, write_bytes, call_pure, call.
    destruct Hfail as [Hdp | (dp & Hdp & Hroute)].
    - now rewrite Hdp.
    - now rewrite Hdp, Hroute. }
  rewrite Hrun. repeat split. apply written_bytes.
Qed.

(** X3: when [store_file] hits the uniqueness constraint and
    [get_id_if_exists] itself raises, that error leaves the handler
    uncaught: the [except Exception] clause does not cover the lookup, so
    nothing is unlinked, logged or scheduled after it. *)
Theorem upload_file_lookup_error_escapes file user_id ip w e w2 e' w3 :
  passes_validation cfg file ->
  resolves (temp_path_of cfg file) user_id ip ->
  store_file ip (temp_path_of cfg file) (written cfg file w) = (inl e, w2) ->
  class_of e = IntegrityError ->
  get_id_if_exists ip (temp_path_of cfg file) w2 = (inl e', w3) ->
  upload_file cfg file user_id w = (Raise (Uncaught e'), w3) /\
  response 200 (upload_file cfg file user_id w).1 = (500, InternalServerError).
Proof.
  intros Hv Hres Hstore Hclass Hlookup.
  assert (Hrun : upload_file cfg file user_id w = (Raise (Uncaught e'), w3)).
  { rewrite (upload_file_reaches_store cfg file user_id ip w Hv Hres).
    unfold store_or_dedupe, bind at 1, try_except. rewrite Hstore, Hclass.
    unfold bind at 1, call. now rewrite Hlookup. }
  rewrite Hrun. split; reflexivity.
Qed.

(** X4: with a library that leaves the task queue alone, the handler
    schedules a job exactly when it answers "accepted": then the queue grows
    by the one job whose id is the id in the answer; on every failure the
    queue is as before. *)
Theorem upload_file_schedules_iff_accepted file user_id w :
  lib_keeps_tasks ->
  (forall j, (upload_file cfg file user_id w).1 = Return j ->
     exists file_id,
       j = JObj [("status", JStr "accepted"); ("file_id", JStr file_id);
                 ("filename", JStr (sanitized file))] /\
       background_tasks (upload_file cfg file user_id w).2
         = (background_tasks w ++ [mkJob file_id (temp_path_of cfg file) user_id])%list) /\
  (forall e, (upload_file cfg file user_id w).1 = Raise e ->
     background_tasks (upload_file cfg file user_id w).2 = background_tasks w).
Proof.
  intros Hk.
  destruct (upload_file_follows_path file user_id w)
    as [d Hn | e Hv He | dp e Hv Hdp He | ip id w2 Hv Hres Hs
        | ip e w2 Hv Hres Hs Hc | ip e w2 id w3 Hv Hres Hs Hc Hl Hid
        | ip e w2 ex w3 Hv Hres Hs Hc Hl Hex | ip e w2 e' w3 Hv Hres Hs Hc Hl];
    simpl; (split; [intros j Hj | intros e0 He0]); try discriminate;
    try reflexivity;
    try (destruct (Hk ip (temp_path_of cfg file) (written cfg file w)) as [H1 _];
         rewrite Hs in H1; simpl in H1);
    try (destruct (Hk ip (temp_path_of cfg file) w2) as [_ H2];
         rewrite Hl in H2; simpl in H2).
  - injection Hj as <-. exists id. split; [reflexivity |]. now rewrite H1.
  - exact H1.
  - injection Hj as <-. exists id. split; [reflexivity |]. now rewrite H2, H1.
  - now rewrite H2, H1.
  - now rewrite H2, H1.
Qed.

(** X5: with a library that leaves the temp path alone, an accepted upload
    hands over a job (the last of the queue) whose path holds exactly the
    uploaded bytes. *)
Theorem upload_file_hands_over_bytes file user_id w j :
  lib_keeps (temp_path_of cfg file) ->
  (upload_file cfg file user_id w).1 = Return j ->
  exists file_id earlier,
    j = accepted file_id (sanitized file) /\
    background_tasks (upload_file cfg file user_id w).2
      = (earlier ++ [mkJob file_id (temp_path_of cfg file) user_id])%list /\
    fs (upload_file cfg file user_id w).2 !! temp_path_of cfg file = Some (read file).
Proof.
  intros Hk Hret.
  pose proof (accepted_bytes_in_place file user_id w j Hk Hret) as Hbytes.
  destruct (upload_file_follows_path file user_id w)
    as [d Hn | e Hv He | dp e Hv Hdp He | ip id w2 Hv Hres Hs
        | ip e w2 Hv Hres Hs Hc | ip e w2 id w3 Hv Hres Hs Hc Hl Hid
        | ip e w2 ex w3 Hv Hres Hs Hc Hl Hex | ip e w2 e' w3 Hv Hres Hs Hc Hl];
    simpl in Hret; try discriminate; injection Hret as <-.
  - exists id, (background_tasks w2). repeat split. exact Hbytes.
  - exists id, (background_tasks w3). repeat split. exact Hbytes.
Qed.

(** X6: the temp path is keyed by the sanitised name alone.  When two
    accepted uploads have the same sanitised name (whatever their
    directories, users and bodies), the second is written to the temp path
    of the first, and after it that path holds the second body. *)
Theorem upload_file_same_name_overwrites file1 file2 user1 user2 w j1 j2 :
  lib_keeps (temp_path_of cfg file1) ->
  sanitized file1 = sanitized file2 ->
  (upload_file cfg file1 user1 w).1 = Return j1 ->
  (upload_file cfg file2 user2 (upload_file cfg file1 user1 w).2).1 = Return j2 ->
  temp_path_of cfg file2 = temp_path_of cfg file1 /\
  fs (upload_file cfg file1 user1 w).2 !! temp_path_of cfg file1 = Some (read file1) /\
  fs (upload_file cfg file2 user2 (upload_file cfg file1 user1 w).2).2
    !! temp_path_of cfg file1 = Some (read file2).
Proof.
  intros Hk Hsame H1 H2.
  assert (Hpath : temp_path_of cfg file2 = temp_path_of cfg file1)
    by (unfold temp_path_of; now rewrite Hsame).
  split; [exact Hpath |]. split.
  - exact (accepted_bytes_in_place file1 user1 w j1 Hk H1).
  - rewrite <- Hpath. rewrite <- Hpath in Hk.
    exact (accepted_bytes_in_place file2 user2 _ j2 Hk H2).
Qed.

(** X7: status 400 is answered exactly when validation fails; every other
    failure of the handler has another status. *)
Theorem upload_file_400_iff_invalid file user_id w :
  (exists detail,
     response 200 (upload_file cfg file user_id w).1 = (400, Detail detail))
  <-> ~ passes_validation cfg file.
Proof.
  split.
  - intros (detail & Hd) Hv.
    destruct (upload_file_follows_path file user_id w)
      as [d Hn | e _ He | dp e _ Hdp He | ip id w2 _ Hres Hs
          | ip e w2 _ Hres Hs Hc | ip e w2 id w3 _ Hres Hs Hc Hl Hid
          | ip e w2 ex w3 _ Hres Hs Hc Hl Hex | ip e w2 e' w3 _ Hres Hs Hc Hl];
      simpl in Hd; try discriminate.
    contradiction.
  - intros Hn. destruct (not_passes_cases file Hn) as [Hext | Hsize].
    + rewrite (upload_file_unsupported cfg file user_id w Hext). simpl. eauto.
    + destruct (Str.mem (extension file) (allowed_exts cfg)) eqn:Hmem.
      * rewrite (upload_file_too_large cfg file user_id w Hmem Hsize). simpl. eauto.
      * rewrite (upload_file_unsupported cfg file user_id w Hmem). simpl. eauto.
Qed.

End UploadPaths.

Section SanitisedUpload.

Context `{K : Ktem} `{P : PyStr}.
Variable cfg : flowsettings.





End SanitisedUpload.

(** ** Background Indexer: the indexing stages *)

Section IndexerStages.

Context `{K : Ktem} `{P : PyStr}.

(** With the row found and its file on disk, the indexer is the three
    stages run one after the other. *)
Lemma background_index_reaches_stages file_id tmp_path user_id ip w rows src data :
  resolves tmp_path user_id ip ->
  db w !! IndexPipeline_Source ip = Some rows ->
  List.find (fun r => String.eqb (SourceRecord.id r) file_id) rows = Some src ->
  fs w !! pathlib.truediv (FSPath ip) (SourceRecord.path src) = Some data ->
  _background_index file_id tmp_path user_id w =
    bind (call (load_data ip tmp_path (extra_info_of ip file_id tmp_path)))
         (fun docs =>
            bind (call (handle_docs ip docs file_id (pathlib.name tmp_path)))
                 (fun _ => call (finish ip file_id tmp_path))) w.
Proof.
  intros Hres Htable Hfind Hdisk.
  rewrite (background_index_reaches_lookup file_id tmp_path user_id ip w rows
             Hres Htable).
  rewrite Hfind. cbv zeta. rewrite Hdisk.
  rewrite bool_decide_eq_true_2 by eauto. reflexivity.
Qed.

(** X9: with the row found and its file on disk, the indexer loads the
    temp file with the file name, file id and collection name as extra
    info, hands the loaded documents to [handle_docs], runs [finish] on the
    world the handling left, and returns. *)
Theorem background_index_runs_stages_in_order
    file_id tmp_path user_id ip w rows src data docs w1 w2 w3 :
  resolves tmp_path user_id ip ->
  db w !! IndexPipeline_Source ip = Some rows ->
  List.find (fun r => String.eqb (SourceRecord.id r) file_id) rows = Some src ->
  fs w !! pathlib.truediv (FSPath ip) (SourceRecord.path src) = Some data ->
  load_data ip tmp_path
    [("file_name", pathlib.name tmp_path); ("file_id", file_id);
     ("collection_name", collection_name ip)] w = (inr docs, w1) ->
  handle_docs ip docs file_id (pathlib.name tmp_path) w1 = (inr tt, w2) ->
  finish ip file_id tmp_path w2 = (inr tt, w3) ->
  _background_index file_id tmp_path user_id w = (Return tt, w3).
Proof.
  intros Hres Htable Hfind Hdisk Hload Hhandle Hfinish.
  rewrite (background_index_reaches_stages file_id tmp_path user_id ip w rows src
             data Hres Htable Hfind Hdisk).
  unfold bind at 1, call at 1, extra_info_of. rewrite Hload.
  unfold bind, call. now rewrite Hhandle, Hfinish.
Qed.

(** X10: nothing in the indexer catches a failing stage.  An error of the
    loader leaves the task at once, so neither [handle_docs] nor [finish]
    runs; an error of [handle_docs] skips [finish]; an error of [finish]
    leaves the task too.  In each case the final world is the one the
    failing stage left. *)
Theorem background_index_stage_errors_escape
    file_id tmp_path user_id ip w rows src data :
  resolves tmp_path user_id ip ->
  db w !! IndexPipeline_Source ip = Some rows ->
  List.find (fun r => String.eqb (SourceRecord.id r) file_id) rows = Some src ->
  fs w !! pathlib.truediv (FSPath ip) (SourceRecord.path src) = Some data ->
  (forall e w1,
     load_data ip tmp_path (extra_info_of ip file_id tmp_path) w = (inl e, w1) ->
     _background_index file_id tmp_path user_id w = (Raise (Uncaught e), w1)) /\
  (forall docs w1 e w2,
     load_data ip tmp_path (extra_info_of ip file_id tmp_path) w = (inr docs, w1) ->
     handle_docs ip docs file_id (pathlib.name tmp_path) w1 = (inl e, w2) ->
     _background_index file_id tmp_path user_id w = (Raise (Uncaught e), w2)) /\
  (forall docs w1 w2 e w3,
     load_data ip tmp_path (extra_info_of ip file_id tmp_path) w = (inr docs, w1) ->
     handle_docs ip docs file_id (pathlib.name tmp_path) w1 = (inr tt, w2) ->
     finish ip file_id tmp_path w2 = (inl e, w3) ->
     _background_index file_id tmp_path user_id w = (Raise (Uncaught e), w3)).
Proof.
  intros Hres Htable Hfind Hdisk.
  rewrite (background_index_reaches_stages file_id tmp_path user_id ip w rows src
             data Hres Htable Hfind Hdisk).
  split; [| split].
  - intros e w1 Hload. unfold bind at 1, call at 1. now rewrite Hload.
  - intros docs w1 e w2 Hload Hhandle. unfold bind at 1, call at 1.
    rewrite Hload. unfold bind, call. now rewrite Hhandle.
  - intros docs w1 w2 e w3 Hload Hhandle Hfinish. unfold bind at 1, call at 1.
    rewrite Hload. unfold bind, call. now rewrite Hhandle, Hfinish.
Qed.

(** X11: the indexer itself writes and removes no file.  With stages that
    leave the file at [p] alone, [p] holds after the run what it held
    before, on every path; in particular the temp upload is still there. *)
Theorem background_index_writes_no_file file_id tmp_path user_id w p :
  indexing_keeps p ->
  fs (_background_index file_id tmp_path user_id w).2 !! p = fs w !! p.
Proof.
  intros (Hload & Hhandle & Hfinish). unfold _background_index.
  unfold bind at 1 2 3, call_pure, call.
  destruct (get_indexing_pipeline [] user_id) as [e | dp]; [reflexivity |].
  destruct (route dp tmp_path) as [e | ip]; [reflexivity |].
  unfold session_get.
  destruct (db w !! IndexPipeline_Source ip) as [rows |]; [| reflexivity].
  destruct (List.find _ rows) as [src |]; [| reflexivity].
  unfold bind at 1, exists_.
  destruct (negb (bool_decide (is_Some (fs w !! _)))); [reflexivity |].
  set (info := [("file_name", pathlib.name tmp_path); ("file_id", file_id);
                ("collection_name", collection_name ip)]).
  unfold bind at 1.
  pose proof (Hload ip tmp_path info w) as Hl.
  destruct (load_data ip tmp_path info w) as [[e | docs] w1]; simpl in Hl;
    [exact Hl |].
  unfold bind at 1.
  pose proof (Hhandle ip docs file_id (pathlib.name tmp_path) w1) as Hh.
  destruct (handle_docs ip docs file_id (pathlib.name tmp_path) w1)
    as [[e | []] w2]; simpl in Hh; [simpl; now rewrite Hh |].
  pose proof (Hfinish ip file_id tmp_path w2) as Hf.
  destruct (finish ip file_id tmp_path w2) as [[e | []] w3]; simpl in Hf; simpl;
    now rewrite Hf, Hh.
Qed.

End IndexerStages.

Section Handoff.

Context `{K : Ktem} `{P : PyStr}.
Variable cfg : flowsettings.

(** X8: the filename of an accepted answer is the file name the indexer
    works with.  An accepted upload answers with the sanitised name and
    queues a job on the temp path; whenever [_background_index] runs on
    that job's arguments with the row found and its file on disk, the
    [file_name] it gives the loader in [extra_info], and the name it gives
    [handle_docs], are that same filename. *)
Theorem temp_name_is_answered_name file user_id w j :
  (upload_file cfg file user_id w).1 = Return j ->
  exists file_id earlier,
    j = JObj [("status", JStr "accepted"); ("file_id", JStr file_id);
              ("filename", JStr (sanitized file))] /\
    background_tasks (upload_file cfg file user_id w).2
      = (earlier ++ [mkJob file_id (temp_path_of cfg file) user_id])%list /\
    forall w' ip rows src data,
      resolves (temp_path_of cfg file) user_id ip ->
      db w' !! IndexPipeline_Source ip = Some rows ->
      List.find (fun r => String.eqb (SourceRecord.id r) file_id) rows = Some src ->
      fs w' !! pathlib.truediv (FSPath ip) (SourceRecord.path src) = Some data ->
      _background_index file_id (temp_path_of cfg file) user_id w' =
        bind (call (load_data ip (temp_path_of cfg file)
                      [("file_name", sanitized file); ("file_id", file_id);
                       ("collection_name", collection_name ip)]))
             (fun docs =>
                bind (call (handle_docs ip docs file_id (sanitized file)))
                     (fun _ => call (finish ip file_id (temp_path_of cfg file)))) w'.
Proof.
  intros Hret.
  assert (Hname : passes_validation cfg file ->
                  pathlib.name (temp_path_of cfg file) = sanitized file).
  { intros [Hmem _]. rewrite (temp_path_is_child cfg file Hmem).
    unfold pathlib.name. simpl. apply last_last. }
  assert (Hstages : forall file_id, passes_validation cfg file ->
    forall w' ip rows src data,
      resolves (temp_path_of cfg file) user_id ip ->
      db w' !! IndexPipeline_Source ip = Some rows ->
      List.find (fun r => String.eqb (SourceRecord.id r) file_id) rows = Some src ->
      fs w' !! pathlib.truediv (FSPath ip) (SourceRecord.path src) = Some data ->
      _background_index file_id (temp_path_of cfg file) user_id w' =
        bind (call (load_data ip (temp_path_of cfg file)
                      [("file_name", sanitized file); ("file_id", file_id);
                       ("collection_name", collection_name ip)]))
             (fun docs =>
                bind (call (handle_docs ip docs file_id (sanitized file)))
                     (fun _ => call (finish ip file_id (temp_path_of cfg file)))) w').
  { intros file_id Hv w' ip rows src data Hres Htable Hfind Hdisk.
    rewrite (background_index_reaches_stages file_id (temp_path_of cfg file)
               user_id ip w' rows src data Hres Htable Hfind Hdisk).
    unfold extra_info_of. now rewrite (Hname Hv). }
  destruct (upload_file_follows_path cfg file user_id w)
    as [d Hn | e Hv He | dp e Hv Hdp He | ip id w2 Hv Hres Hs
        | ip e w2 Hv Hres Hs Hc | ip e w2 id w3 Hv Hres Hs Hc Hl Hid
        | ip e w2 ex w3 Hv Hres Hs Hc Hl Hex | ip e w2 e' w3 Hv Hres Hs Hc Hl];
    simpl in Hret; try discriminate; injection Hret as <-.
  - exists id, (background_tasks w2).
    split; [reflexivity |]. split; [reflexivity |]. now apply Hstages.
  - exists id, (background_tasks w3).
    split; [reflexivity |]. split; [reflexivity |]. now apply Hstages.
Qed.

End Handoff.

(** ** Listing and search: remaining paths *)

Section ReadPaths.

Context `{K : Ktem} `{P : PyStr}.

(** X12: listing is a pure read: whatever it answers, the world after
    [list_files] is the world before. *)
Theorem list_files_changes_nothing user_id w :
  (list_files user_id w).2 = w.
Proof.
  unfold list_files, bind at 1, call_pure, call.
  destruct (get_indexing_pipeline [] user_id) as [e | dp]; [reflexivity |].
  unfold bind, try_except, select_all.
  destruct (db w !! DocPipeline_Source dp); reflexivity.
Qed.

(** X13: when the store cannot read the Source table, [list_files]
    catches the error the engine raises, whatever it is, and answers
    status 500 with "Could not list files: " followed by [str(e)] of that
    error. *)
Theorem list_files_read_error_is_wrapped user_id dp w :
  get_indexing_pipeline [] user_id = inr dp ->
  db w !! DocPipeline_Source dp = None ->
  select_all (DocPipeline_Source dp) w
    = (inl (engine_error (DocPipeline_Source dp) SelectAll), w) /\
  response 200 (list_files user_id w).1 =
    (500, Detail [Lit "Could not list files: ";
                  FmtStr (exn_str (engine_error (DocPipeline_Source dp) SelectAll))]).
Proof.
  intros Hdp Hnone. split.
  - unfold select_all. now rewrite Hnone.
  - rewrite (list_files_run user_id dp w Hdp), Hnone. reflexivity.
Qed.

(** X14: pipeline resolution sits before the [try] of [list_files]: when
    it raises, the error leaves the handler uncaught and the client gets a
    bare 500, not "Could not list files". *)
Theorem list_files_resolution_error_escapes user_id e w :
  get_indexing_pipeline [] user_id = inl e ->
  list_files user_id w = (Raise (Uncaught e), w) /\
  response 200 (list_files user_id w).1 = (500, InternalServerError).
Proof.
  intros Hdp. unfold list_files, bind at 1, call_pure, call.
  rewrite Hdp. split; reflexivity.
Qed.

(** [search_files] with its monadic plumbing run. *)
Lemma search_files_run query top_k user_id w :
  search_files query top_k user_id w =
    match search query top_k user_id w with
    | (inr results, w1) => (Return (search_result query top_k results), w1)
    | (inl e, w1) =>
        match class_of e with
        | AttributeError =>
            match get_query_pipeline [] user_id w1 with
            | (inl e1, w2) => (Raise (Uncaught e1), w2)
            | (inr pipeline, w2) =>
                match pipeline_search pipeline query top_k w2 with
                | (inl e2, w3) => (Raise (Uncaught e2), w3)
                | (inr results, w3) =>
                    (Return (search_result query top_k results), w3)
                end
            end
        | _ => (Raise (HTTPException 500
                         [Lit "Search failed: "; FmtStr (exn_str e)]), w1)
        end
    end.
Proof.
  unfold search_files, bind at 1, try_except.
  destruct (search query top_k user_id w) as [[e | results] w1]; [| reflexivity].
  destruct (class_of e); [reflexivity | | reflexivity].
  unfold bind at 1, call.
  destruct (get_query_pipeline [] user_id w1) as [[e1 | pipeline] w2];
    [reflexivity |].
  destruct (pipeline_search pipeline query top_k w2) as [[e2 | results] w3];
    reflexivity.
Qed.

(** X15: what [search_files] can answer.  A body always echoes the query
    and [top_k] of the request; an [HTTPException] is always status 500
    with "Search failed: " and the error of the direct search, which was not
    an [AttributeError]; an uncaught error only occurs after the direct
    search raised [AttributeError]. *)
Theorem search_files_outcomes query top_k user_id w :
  (forall j, (search_files query top_k user_id w).1 = Return j ->
     exists results, j = search_result query top_k results) /\
  (forall status_code detail,
     (search_files query top_k user_id w).1
       = Raise (HTTPException status_code detail) ->
     status_code = 500 /\
     exists e, (search query top_k user_id w).1 = inl e /\
               class_of e <> AttributeError /\
               detail = [Lit "Search failed: "; FmtStr (exn_str e)]) /\
  (forall e', (search_files query top_k user_id w).1 = Raise (Uncaught e') ->
     exists e, (search query top_k user_id w).1 = inl e /\
               class_of e = AttributeError).
Proof.
  rewrite (search_files_run query top_k user_id w).
  destruct (search query top_k user_id w) as [[e | results] w1].
  - destruct (class_of e) eqn:Hc.
    + simpl. split; [| split]; try discriminate.
      intros status_code detail Hraise. inversion Hraise. subst.
      split; [reflexivity |]. exists e. rewrite Hc. now repeat split.
    + destruct (get_query_pipeline [] user_id w1) as [[e1 | pipeline] w2].
      * simpl. split; [| split]; try discriminate. intros e' _. now exists e.
      * destruct (pipeline_search pipeline query top_k w2) as [[e2 | results] w3];
          simpl; (split; [| split]); try discriminate.
        -- intros e' _. now exists e.
        -- intros j [= <-]. now exists results.
    + simpl. split; [| split]; try discriminate.
      intros status_code detail Hraise. inversion Hraise. subst.
      split; [reflexivity |]. exists e. rewrite Hc. now repeat split.
  - simpl. split; [| split]; try discriminate.
    intros j [= <-]. now exists results.
Qed.

End ReadPaths.

(** ** User creation: invariants and round trip *)

Section UserInvariants.

Variable sha256_hexdigest : string -> string.
Context `{P : PyStr}.

(** The row [create_user] builds for a request. *)
Lemma create_user_run user_in uuid4 table :
  main.create_user sha256_hexdigest user_in uuid4 table =
    match List.find (fun u => String.eqb (User.username_lower u)
                                (lower (UserCreate.username user_in))) table with
    | Some _ =>
        (Raise (HTTPException 400
                  [Lit "Username '"; FmtStr (UserCreate.username user_in);
                   Lit "' already exists."]), table)
    | None =>
        let user :=
          User.mk uuid4 (UserCreate.username user_in)
                  (default false (UserCreate.admin user_in))
                  (lower (UserCreate.username user_in))
                  (sha256_hexdigest (UserCreate.password user_in)) in
        if existsb (fun u => String.eqb (User.id u) uuid4) table then
          (Raise (Uncaught (mkExn IntegrityError "UNIQUE constraint failed: user.id")),
           table)
        else (Return (UserRead.from_orm user), (table ++ [user])%list)
    end.
Proof.
  unfold main.create_user.
  destruct (List.find _ table) as [u |] eqn:Hfind; [reflexivity |].
  unfold main.commit. simpl.
  destruct (existsb (fun u => String.eqb (User.id u) uuid4) table); [reflexivity |].
  now rewrite (existsb_lower_false _ table Hfind).
Qed.

Lemma existsb_false_not_in {A} (f : A -> string) (x : string) (l : list A) :
  existsb (fun u => String.eqb (f u) x) l = false -> ~ In x (List.map f l).
Proof.
  induction l as [| a l IH]; simpl; [intros _ [] |].
  intros H. apply orb_false_iff in H. destruct H as [Ha Hl].
  intros [Heq | Hin]; [| now apply IH].
  rewrite Heq, String.eqb_refl in Ha. discriminate.
Qed.

Lemma NoDup_snoc {A} (l : list A) x :
  List.NoDup l -> ~ In x l -> List.NoDup (l ++ [x]).
Proof.
  intros Hl Hx. induction Hl as [| y l Hy Hl IH]; simpl.
  - constructor; [intros [] | constructor].
  - constructor.
    + intros Hin. apply in_app_or in Hin. destruct Hin as [Hin | [-> | []]].
      * contradiction.
      * apply Hx. now left.
    + apply IH. intros Hin. apply Hx. now right.
Qed.

(** What a successful creation appended. *)
Lemma create_user_touches_one_row_aux user_in uuid4 table r :
  (main.create_user sha256_hexdigest user_in uuid4 table).1 = Return r ->
  exists user,
    (main.create_user sha256_hexdigest user_in uuid4 table).2
      = (table ++ [user])%list /\
    User.username_lower user = lower (UserCreate.username user_in).
Proof.
  rewrite create_user_run.
  destruct (List.find _ table) as [u |]; [discriminate |]. cbv zeta.
  destruct (existsb (fun u => String.eqb (User.id u) uuid4) table);
    [discriminate |].
  intros _. eexists. split; reflexivity.
Qed.

(** X19: [create_user] keeps the user table well formed: the lowercase
    column still mirrors the usernames, ids stay pairwise distinct and so do
    the lowercase usernames, whether the request succeeds or fails. *)
Theorem create_user_keeps_table_well_formed user_in uuid4 table :
  lower_column_ok table ->
  unique_users table ->
  lower_column_ok (main.create_user sha256_hexdigest user_in uuid4 table).2 /\
  unique_users (main.create_user sha256_hexdigest user_in uuid4 table).2.
Proof.
  intros Hok [Hids Hnames].
  split; [now apply create_user_keeps_lower_column |].
  rewrite create_user_run.
  destruct (List.find _ table) as [u |] eqn:Hfind; [now split |].
  cbv zeta.
  destruct (existsb (fun u => String.eqb (User.id u) uuid4) table) eqn:Hid;
    [now split |].
  simpl. unfold unique_users. rewrite !List.map_app. simpl. split.
  - apply NoDup_snoc; [exact Hids |]. now apply existsb_false_not_in.
  - apply NoDup_snoc; [exact Hnames |].
    apply existsb_false_not_in. now apply existsb_lower_false.
Qed.

(** X20: a refused or failed creation leaves the user table as it was; a
    successful one appends exactly one row and changes no other: the row
    has the username as typed, its lowercase form and the hash of the
    password, and the answer is read off that row. *)
Theorem create_user_touches_one_row user_in uuid4 table :
  (forall e, (main.create_user sha256_hexdigest user_in uuid4 table).1 = Raise e ->
     (main.create_user sha256_hexdigest user_in uuid4 table).2 = table) /\
  (forall r, (main.create_user sha256_hexdigest user_in uuid4 table).1 = Return r ->
     exists user,
       (main.create_user sha256_hexdigest user_in uuid4 table).2
         = (table ++ [user])%list /\
       r = UserRead.mk uuid4 (UserCreate.username user_in) (User.admin user) /\
       User.admin user = default false (UserCreate.admin user_in) /\
       User.id user = uuid4 /\
       User.username user = UserCreate.username user_in /\
       User.username_lower user = lower (UserCreate.username user_in) /\
       User.password user = sha256_hexdigest (UserCreate.password user_in)).
Proof.
  rewrite create_user_run.
  destruct (List.find _ table) as [u |];
    [split; [reflexivity | discriminate] |].
  cbv zeta.
  destruct (existsb (fun u => String.eqb (User.id u) uuid4) table);
    [split; [reflexivity | discriminate] |].
  split; [discriminate |]. intros r [= <-]. eexists. repeat split.
Qed.

(** X21: once a username has been created, a second request for a name
    equal to it up to case is refused with status 400 and changes nothing,
    whatever the table held before. *)
Theorem create_user_then_same_name_refused user1 id1 user2 id2 table r :
  (main.create_user sha256_hexdigest user1 id1 table).1 = Return r ->
  lower (UserCreate.username user2) = lower (UserCreate.username user1) ->
  main.create_user sha256_hexdigest user2 id2
      (main.create_user sha256_hexdigest user1 id1 table).2
    = (Raise (HTTPException 400
                [Lit "Username '"; FmtStr (UserCreate.username user2);
                 Lit "' already exists."]),
       (main.create_user sha256_hexdigest user1 id1 table).2).
Proof.
  intros Hfirst Hsame.
  destruct (create_user_touches_one_row_aux user1 id1 table r Hfirst)
    as (user & Htable & Hlower).
  rewrite Htable. rewrite (create_user_run user2 id2).
  destruct (List.find _ (table ++ [user])%list) as [u |] eqn:Hfind; [reflexivity |].
  exfalso. pose proof (find_none _ _ Hfind user) as Hno. simpl in Hno.
  rewrite Hlower, Hsame, String.eqb_refl in Hno.
  assert (Hin : In user (table ++ [user])) by (apply in_or_app; right; now left).
  specialize (Hno Hin). discriminate.
Qed.

End UserInvariants.

(** ** The direct-LLM reasoning component *)

Section ReasoningFacts.

Context `{L : agen_rag.ChatLLM}.

(** X22: [stream] sends the LLM the fixed system message followed by the
    user's message, and yields one document per chunk, in order, each on
    channel "chat" and holding the chunk's text; it stops where and as the
    LLM stream stops.  Neither [conv_id] nor [history] takes part. *)
Theorem stream_yields_one_chat_document_per_chunk message conv_id history :
  let response :=
    agen_rag.llm_stream
      [agen_rag.SystemMessage "You are a helpful assistant";
       agen_rag.HumanMessage message] in
  List.map agen_rag.content (agen_rag.yielded (agen_rag.stream message conv_id history))
    = agen_rag.yielded response /\
  Forall (fun d => agen_rag.channel d = "chat")
         (agen_rag.yielded (agen_rag.stream message conv_id history)) /\
  agen_rag.stopped_by (agen_rag.stream message conv_id history)
    = agen_rag.stopped_by response /\
  forall conv_id' history',
    agen_rag.stream message conv_id' history'
    = agen_rag.stream message conv_id history.
Proof.
  unfold agen_rag.stream. simpl. split; [| split; [| split]].
  - rewrite List.map_map. simpl. apply List.map_id.
  - apply Forall_forall. intros d Hd. apply in_map_iff in Hd.
    now destruct Hd as (chunk & <- & _).
  - reflexivity.
  - reflexivity.
Qed.

End ReasoningFacts.

(** X23: the settings the class keeps are those of its second
    [get_user_settings], never the empty ones of the first.  Whatever
    [llms.options()] does, the LLM dropdown starts with the "(default)"
    choice, whose value is the preselected value; when the options can be
    read there is one more choice per name and nothing is logged; when
    reading them raises, the error is logged, not raised, and "(default)"
    is the only choice. *)
Theorem get_user_settings_offers_default options :
  let settings := (agen_rag.get_user_settings options).1 in
  settings <> agen_rag.get_user_settings_shadowed /\
  keys settings = ["llm"; "system_prompt"] /\
  (exists rest,
     (dict_get "llm" settings ≫= dict_get "choices")
       = Some (JList (JList [JStr "(default)"; JStr ""] :: rest)) /\
     (dict_get "llm" settings ≫= dict_get "value") = Some (JStr "") /\
     match options with
     | inr names =>
         rest = List.map (fun name => JList [JStr name; JStr name]) names /\
         (agen_rag.get_user_settings options).2 = []
     | inl e =>
         rest = [] /\
         (agen_rag.get_user_settings options).2
           = [[Lit "Failed to get LLM options: "; FmtStr (exn_str e)]]
     end).
Proof.
  simpl. split; [discriminate |]. split; [reflexivity |].
  destruct options as [e | names]; simpl.
  - exists []. repeat split.
  - eexists. split; [reflexivity |]. split; [reflexivity |].
    split; [| reflexivity]. now rewrite List.map_map.
Qed.

#[global] Existing Instance ascii_str.

(** * The statements at concrete inputs *)

(** ** Sanity checks of the string and path model *)

Example Path_name_nested : pathlib.name (pathlib.Path "a/b/report.PDF") = "report.PDF".
Proof. reflexivity. Qed.

Example Path_name_dotdot : pathlib.name (pathlib.Path "../../etc/passwd") = "passwd".
Proof. reflexivity. Qed.

Example Path_name_only_dotdot : pathlib.name (pathlib.Path "a/..") = "..".
Proof. reflexivity. Qed.

Example Path_suffix_dotdot : pathlib.suffix (pathlib.Path "..") = "".
Proof. reflexivity. Qed.

Example Path_suffix_hidden : pathlib.suffix (pathlib.Path ".bashrc") = "".
Proof. reflexivity. Qed.

Example Path_suffix_two : pathlib.suffix (pathlib.Path "x.tar.gz") = ".gz".
Proof. reflexivity. Qed.

Example Path_truediv : pathlib.truediv (pathlib.Path "/tmp/up") "a.pdf"
                       = mkPath "/" ["tmp"; "up"; "a.pdf"].
Proof. reflexivity. Qed.

Example split_example : Str.split "," ".pdf, .TXT ,," = [".pdf"; " .TXT "; ""; ""].
Proof. reflexivity. Qed.

Example strip_example : Str.strip "  .TXT " = ".TXT".
Proof. reflexivity. Qed.

Example isoformat_example :
  isoformat (mkDatetime 2024 3 9 7 5 0 0) = "2024-03-09T07:05:00".
Proof. reflexivity. Qed.

Example allowed_exts_demo : allowed_exts demo_settings = [".pdf"; ".txt"; ".md"].
Proof. reflexivity. Qed.

Example temp_path_demo :
  temp_path_of demo_settings report_pdf = mkPath "/" ["tmp"; "uploads"; "Report.PDF"].
Proof. reflexivity. Qed.

(** ** The statements at concrete inputs *)

Lemma upload_file_rejects_before_any_write_witness :
  exists detail,
    upload_file (K := dedupe_lib) demo_settings malware_exe "api" empty_world
      = (Raise (HTTPException 400 detail), empty_world) /\
    fs (upload_file (K := dedupe_lib) demo_settings malware_exe "api" empty_world).2
      = fs empty_world /\
    fs (upload_file (K := dedupe_lib) demo_settings malware_exe "api" empty_world).2
      !! temp_path_of demo_settings malware_exe
      = fs empty_world !! temp_path_of demo_settings malware_exe.
Proof.
  apply (upload_file_rejects_before_any_write (K := dedupe_lib)).
  left. reflexivity.
Defined.

Lemma report_pdf_passes_validation : passes_validation demo_settings report_pdf.
Proof. split; [reflexivity | vm_compute; discriminate]. Defined.

Lemma report_pdf_resolves (s : Script) :
  resolves (K := scripted s) (temp_path_of demo_settings report_pdf) "api" "api".
Proof. exists "api". split; reflexivity. Defined.

Lemma upload_file_dedupes_on_unique_violation_witness :
  response 200
    (upload_file (K := dedupe_lib) demo_settings report_pdf "api" empty_world).1
  = (200, Json (JObj [("status", JStr "accepted"); ("file_id", JStr "f-001");
                      ("filename", JStr "Report.PDF")])).
Proof.
  destruct (upload_file_dedupes_on_unique_violation (K := dedupe_lib)
              demo_settings report_pdf "api" "api" empty_world
              report_pdf_passes_validation (report_pdf_resolves _)
              unique_violation _ (Some "f-001") _ eq_refl eq_refl eq_refl)
    as [Hfound _].
  exact (proj1 (Hfound "f-001" eq_refl ltac:(discriminate))).
Defined.

Lemma upload_file_storage_error_cleans_up_witness :
  response 200
    (upload_file (K := full_disk_lib) demo_settings report_pdf "api" empty_world).1
  = (500, Detail [Lit "Failed to store file: ";
                  FmtStr "[Errno 28] No space left on device"]) /\
  fs (upload_file (K := full_disk_lib) demo_settings report_pdf "api" empty_world).2
    !! temp_path_of demo_settings report_pdf = None.
Proof.
  destruct (upload_file_storage_error_cleans_up (K := full_disk_lib)
              demo_settings report_pdf "api" "api" empty_world
              report_pdf_passes_validation (report_pdf_resolves _)
              disk_full _ eq_refl ltac:(discriminate))
    as (Hresp & _ & Hgone & _).
  split; [exact Hresp | exact Hgone].
Defined.

Lemma scripted_keeps_files (s : Script) p : lib_keeps (K := scripted s) p.
Proof. intros ip q w. split; reflexivity. Defined.

Lemma upload_file_dedupe_failure_keeps_temp_file_witness :
  upload_file (K := lost_row_lib) demo_settings report_pdf "api" empty_world
    = (Raise duplicate_without_id, written demo_settings report_pdf empty_world) /\
  fs (upload_file (K := lost_row_lib) demo_settings report_pdf "api" empty_world).2
    !! temp_path_of demo_settings report_pdf = Some pdf_bytes.
Proof.
  exact (upload_file_dedupe_failure_keeps_temp_file (K := lost_row_lib)
           demo_settings report_pdf "api" "api" empty_world
           report_pdf_passes_validation (report_pdf_resolves _)
           unique_violation _ None _ eq_refl eq_refl eq_refl
           (or_introl eq_refl) (scripted_keeps_files _ _)).
Defined.


Lemma list_files_ignores_user_id_witness :
  list_files (K := dedupe_lib) "alice" indexed_world
    = list_files (K := dedupe_lib) "bob" indexed_world /\
  (list_files (K := dedupe_lib) "alice" indexed_world).1
    = Return (JObj [("files", JList [file_entry bobs_report])]).
Proof.
  destruct (list_files_ignores_user_id (K := dedupe_lib) "alice" "bob" "alice" "bob"
              indexed_world eq_refl eq_refl eq_refl) as [Hsame Hall].
  split; [exact Hsame | exact (Hall [bobs_report] eq_refl)].
Defined.

Lemma indexed_world_resolves :
  resolves (K := dedupe_lib) (pathlib.Path "/tmp/uploads/Report.PDF") "api" "api".
Proof. exists "api". split; reflexivity. Defined.

(** C3 at a failing run: the Source table has no row ["f-404"] and the
    indexer returns without raising, but nothing was printed or logged on
    the way: the world after the run is the world before, so the abort the
    claim has logged leaves no diagnostic.  The guard next to it, for the
    file missing on disk, does print one. *)
Theorem background_index_missing_record_not_logged :
  db indexed_world !! "index__1__source" = Some [bobs_report] /\
  SourceRecord.id bobs_report <> "f-404" /\
  _background_index (K := dedupe_lib) "f-404"
      (pathlib.Path "/tmp/uploads/Report.PDF") "api" indexed_world
    = (Return tt, indexed_world) /\
  ~ emitted indexed_world
      (_background_index (K := dedupe_lib) "f-404"
         (pathlib.Path "/tmp/uploads/Report.PDF") "api" indexed_world).2 /\
  emitted indexed_world
    (_background_index (K := dedupe_lib) "f-001"
       (pathlib.Path "/tmp/uploads/Report.PDF") "api" indexed_world).2.
Proof.
  split; [reflexivity |]. split; [discriminate |]. split; [reflexivity |].
  split.
  - intros [H | H]; apply H; reflexivity.
  - left. discriminate.
Qed.

Lemma background_index_missing_file_keeps_record_witness :
  (_background_index (K := dedupe_lib) "f-001"
     (pathlib.Path "/tmp/uploads/Report.PDF") "api" indexed_world).1 = Return tt /\
  (list_files (K := dedupe_lib) "alice"
     (_background_index (K := dedupe_lib) "f-001"
        (pathlib.Path "/tmp/uploads/Report.PDF") "api" indexed_world).2).1
    = Return (JObj [("files", JList [file_entry bobs_report])]).
Proof.
  destruct (background_index_missing_file_keeps_record (K := dedupe_lib)
              "f-001" (pathlib.Path "/tmp/uploads/Report.PDF") "api" "api"
              indexed_world [bobs_report] bobs_report
              indexed_world_resolves eq_refl eq_refl eq_refl)
    as (Hret & _ & _ & _ & Hlist).
  split; [exact Hret | exact (proj1 (Hlist "alice" "alice" eq_refl eq_refl))].
Defined.

(** C4 at a failing run: the index has no direct search, the query pipeline
    is built, and its search raises.  The error is raised inside the
    [except AttributeError] clause, so the [except Exception] clause next to
    it does not wrap it: it leaves the handler uncaught, and the client gets
    the framework's bare 500 instead of "Search failed: <cause>". *)
Theorem search_files_fallback_error_escapes_unwrapped :
  search_files (K := failing_fallback_lib) "budget" 5 "api" empty_world
    = (Raise (Uncaught backend_down), empty_world) /\
  response 200
    (search_files (K := failing_fallback_lib) "budget" 5 "api" empty_world).1
    = (500, InternalServerError) /\
  (search_files (K := failing_fallback_lib) "budget" 5 "api" empty_world).1
    <> Raise (HTTPException 500
                [Lit "Search failed: "; FmtStr (exn_str backend_down)]).
Proof.
  split; [reflexivity |]. split; [reflexivity | discriminate].
Qed.

Lemma alice_table_ok : lower_column_ok [alice].
Proof. constructor; [reflexivity | constructor]. Defined.

Lemma create_user_duplicate_iff_witness :
  exists detail,
    response main.HTTP_201_CREATED
      (fmap_outcome UserRead.to_json
         (main.create_user demo_sha256 (UserCreate.mk "ALICE" "hunter2" None)
            "u-2" [alice]).1)
    = (400, Detail detail).
Proof.
  apply (proj1 (create_user_duplicate_iff demo_sha256
                  (UserCreate.mk "ALICE" "hunter2" None) "u-2" [alice]
                  alice_table_ok)).
  exists alice. split; [now left | reflexivity].
Defined.

(** ** Scenarios *)

(** Two uploads of the same bytes by the same user against the storage
    gateway: the second hits the uniqueness constraint and is answered with
    the id of the first, and the table still has one row. *)
Example gateway_second_upload_same_id :
  let lib := Gateway.lib noon in
  let first := upload_file (K := lib) demo_settings report_pdf "api" empty_world in
  let second := upload_file (K := lib) demo_settings report_pdf "api" first.2 in
  first.1 = Return (accepted "src-1" "Report.PDF") /\
  second.1 = Return (accepted "src-1" "Report.PDF") /\
  List.length (default [] (db second.2 !! Gateway.table)) = 1%nat /\
  db second.2 = db first.2.
Proof. vm_compute. repeat split. Qed.

(** The same bytes uploaded by another user are stored under a new id. *)
Example gateway_other_user_new_id :
  let lib := Gateway.lib noon in
  let first := upload_file (K := lib) demo_settings report_pdf "alice" empty_world in
  let second := upload_file (K := lib) demo_settings report_pdf "bob" first.2 in
  first.1 = Return (accepted "src-1" "Report.PDF") /\
  second.1 = Return (accepted "src-2" "Report.PDF").
Proof. vm_compute. repeat split. Qed.

(** [unlink(missing_ok=True)] when the temp file is already gone. *)
Example storage_error_with_temp_file_gone :
  let r := upload_file (K := vanishing_lib) demo_settings report_pdf "api" empty_world in
  r.1 = Raise (HTTPException 500
                 [Lit "Failed to store file: ";
                  FmtStr "[Errno 28] No space left on device"]) /\
  fs r.2 !! temp_path_of demo_settings report_pdf = None /\
  log r.2 = ["Failed to store file"].
Proof. vm_compute. repeat split. Qed.

(** A body one byte over the limit is refused, a body at the limit is not. *)
Example size_limit_is_inclusive :
  let tiny := mkSettings ".pdf" 0 "/tmp/uploads" in
  (upload_file (K := dedupe_lib) tiny (mkUpload "a.pdf" [x00]) "api" empty_world).1
    = Raise (HTTPException 400
               [Lit "File too large: "; FmtInt 1; Lit " bytes (max "; FmtInt 0; Lit ")"]) /\
  (upload_file (K := dedupe_lib) tiny (mkUpload "a.pdf" []) "api" empty_world).1
    = Return (accepted "f-001" "a.pdf").
Proof. vm_compute. repeat split. Qed.

(** A name made of dots only has no suffix and is refused. *)
Example dotdot_is_refused :
  exists detail,
    upload_file (K := dedupe_lib) demo_settings (mkUpload "docs/.." pdf_bytes) "api"
      empty_world = (Raise (HTTPException 400 detail), empty_world).
Proof. eexists. reflexivity. Qed.

(** A new username is created with the admin default and a hashed password. *)
Example create_user_new :
  main.create_user demo_sha256 (UserCreate.mk "Bob" "hunter2" None) "u-2" [alice]
  = (Return (UserRead.mk "u-2" "Bob" false),
     [alice; User.mk "u-2" "Bob" false "bob" "sha256:hunter2"]).
Proof. reflexivity. Qed.

(** A direct search that fails for a reason of its own is wrapped. *)
Example direct_search_failure_is_wrapped :
  let lib := scripted (mkScript (inr "f-001") (inr None) (inl backend_down)
                                (inr tt) (inr (JList []))) in
  search_files (K := lib) "budget" 5 "api" empty_world
  = (Raise (HTTPException 500
              [Lit "Search failed: "; FmtStr "vector store unavailable"]),
     empty_world).
Proof. reflexivity. Qed.

(** ** The further properties at concrete inputs *)

Lemma scripted_keeps_tasks (s : Script) : lib_keeps_tasks (K := scripted s).
Proof. intros ip q w. split; reflexivity. Defined.

Lemma staged_resolves (tmp : PurePath) :
  resolves (K := staged smooth) tmp "api" "api".
Proof. exists "api". split; reflexivity. Defined.

Lemma upload_file_accepts_and_schedules_witness :
  response 200
    (upload_file (K := storing_lib) demo_settings report_pdf "api" empty_world).1
    = (200, Json (JObj [("status", JStr "accepted"); ("file_id", JStr "f-001");
                        ("filename", JStr "Report.PDF")])) /\
  background_tasks
    (upload_file (K := storing_lib) demo_settings report_pdf "api" empty_world).2
    = [mkJob "f-001" (temp_path_of demo_settings report_pdf) "api"].
Proof.
  destruct (upload_file_accepts_and_schedules (K := storing_lib)
              demo_settings report_pdf "api" "api" empty_world "f-001" _
              report_pdf_passes_validation (report_pdf_resolves _) eq_refl)
    as (Hresp & Htasks & _).
  split; [exact Hresp | exact Htasks].
Defined.

Lemma upload_file_resolution_failure_leaves_temp_file_witness :
  response 200
    (upload_file (K := staged unroutable) demo_settings report_pdf "api" empty_world).1
    = (500, InternalServerError) /\
  fs (upload_file (K := staged unroutable) demo_settings report_pdf "api" empty_world).2
    !! temp_path_of demo_settings report_pdf = Some pdf_bytes.
Proof.
  destruct (upload_file_resolution_failure_leaves_temp_file (K := staged unroutable)
              demo_settings report_pdf "api" empty_world no_reader
              report_pdf_passes_validation
              (or_intror (ex_intro _ "api" (conj eq_refl eq_refl))))
    as (_ & Hresp & Hbytes & _).
  split; [exact Hresp | exact Hbytes].
Defined.

Lemma upload_file_lookup_error_escapes_witness :
  upload_file (K := staged lookup_down) demo_settings report_pdf "api" empty_world
    = (Raise (Uncaught backend_down), written demo_settings report_pdf empty_world).
Proof.
  exact (proj1 (upload_file_lookup_error_escapes (K := staged lookup_down)
                  demo_settings report_pdf "api" "api" empty_world
                  unique_violation _ backend_down _
                  report_pdf_passes_validation
                  (ex_intro _ "api" (conj eq_refl eq_refl))
                  eq_refl eq_refl eq_refl)).
Defined.

Lemma upload_file_schedules_iff_accepted_witness :
  background_tasks
    (upload_file (K := lost_row_lib) demo_settings report_pdf "api" empty_world).2
    = background_tasks empty_world.
Proof.
  exact (proj2 (upload_file_schedules_iff_accepted (K := lost_row_lib)
                  demo_settings report_pdf "api" empty_world
                  (scripted_keeps_tasks _))
               duplicate_without_id eq_refl).
Defined.

Lemma upload_file_hands_over_bytes_witness :
  exists file_id earlier,
    accepted "f-001" "Report.PDF" = accepted file_id (sanitized report_pdf) /\
    background_tasks
      (upload_file (K := storing_lib) demo_settings report_pdf "api" empty_world).2
      = (earlier ++ [mkJob file_id (temp_path_of demo_settings report_pdf) "api"])%list /\
    fs (upload_file (K := storing_lib) demo_settings report_pdf "api" empty_world).2
      !! temp_path_of demo_settings report_pdf = Some (read report_pdf).
Proof.
  exact (upload_file_hands_over_bytes (K := storing_lib)
           demo_settings report_pdf "api" empty_world
           (accepted "f-001" "Report.PDF") (scripted_keeps_files _ _) eq_refl).
Defined.

Lemma upload_file_same_name_overwrites_witness :
  temp_path_of demo_settings other_report = temp_path_of demo_settings report_pdf /\
  fs (upload_file (K := storing_lib) demo_settings report_pdf "alice" empty_world).2
    !! temp_path_of demo_settings report_pdf = Some pdf_bytes /\
  fs (upload_file (K := storing_lib) demo_settings other_report "bob"
        (upload_file (K := storing_lib) demo_settings report_pdf "alice" empty_world).2).2
    !! temp_path_of demo_settings report_pdf = Some [x00; x01].
Proof.
  exact (upload_file_same_name_overwrites (K := storing_lib)
           demo_settings report_pdf other_report "alice" "bob" empty_world
           (accepted "f-001" "Report.PDF") (accepted "f-001" "Report.PDF")
           (scripted_keeps_files _ _) eq_refl eq_refl eq_refl).
Defined.

Lemma temp_name_is_answered_name_witness :
  exists file_id earlier,
    accepted "f-001" "Report.PDF"
      = JObj [("status", JStr "accepted"); ("file_id", JStr file_id);
              ("filename", JStr (sanitized report_pdf))] /\
    background_tasks
      (upload_file (K := storing_lib) demo_settings report_pdf "api" empty_world).2
      = (earlier ++ [mkJob file_id (temp_path_of demo_settings report_pdf) "api"])%list /\
    forall w' ip rows src data,
      resolves (K := storing_lib) (temp_path_of demo_settings report_pdf) "api" ip ->
      db w' !! IndexPipeline_Source ip = Some rows ->
      List.find (fun r => String.eqb (SourceRecord.id r) file_id) rows = Some src ->
      fs w' !! pathlib.truediv (FSPath ip) (SourceRecord.path src) = Some data ->
      _background_index (K := storing_lib) file_id
          (temp_path_of demo_settings report_pdf) "api" w' =
        bind (call (load_data ip (temp_path_of demo_settings report_pdf)
                      [("file_name", sanitized report_pdf); ("file_id", file_id);
                       ("collection_name", collection_name ip)]))
             (fun docs =>
                bind (call (handle_docs ip docs file_id (sanitized report_pdf)))
                     (fun _ => call (finish ip file_id
                                       (temp_path_of demo_settings report_pdf)))) w'.
Proof.
  exact (temp_name_is_answered_name (K := storing_lib) demo_settings report_pdf
           "api" empty_world (accepted "f-001" "Report.PDF") eq_refl).
Defined.

Lemma background_index_runs_stages_in_order_witness :
  _background_index (K := staged smooth) "f-001" report_tmp "api" stored_world
    = (Return tt,
       traced "finish" (traced "handle_docs" (traced "load_data" stored_world))).
Proof.
  exact (background_index_runs_stages_in_order (K := staged smooth)
           "f-001" report_tmp "api" "api" stored_world [bobs_report] bobs_report
           pdf_bytes tt _ _ _
           (staged_resolves _) eq_refl eq_refl eq_refl eq_refl eq_refl eq_refl).
Defined.

Lemma background_index_stage_errors_escape_witness :
  _background_index (K := staged handler_down) "f-001" report_tmp "api" stored_world
    = (Raise (Uncaught backend_down),
       traced "handle_docs" (traced "load_data" stored_world)).
Proof.
  destruct (background_index_stage_errors_escape (K := staged handler_down)
              "f-001" report_tmp "api" "api" stored_world [bobs_report] bobs_report
              pdf_bytes (ex_intro _ "api" (conj eq_refl eq_refl))
              eq_refl eq_refl eq_refl)
    as (_ & Hhandle & _).
  exact (Hhandle tt _ backend_down _ eq_refl eq_refl).
Defined.

Lemma staged_keeps_files (g : Stages) p : indexing_keeps (K := staged g) p.
Proof. repeat split. Defined.

Lemma background_index_writes_no_file_witness :
  fs (_background_index (K := staged smooth) "f-001" report_tmp "api" stored_world).2
    !! mkPath "/" ["data"; "files"; "9f2c"]
  = Some pdf_bytes.
Proof.
  exact (background_index_writes_no_file (K := staged smooth)
           "f-001" report_tmp "api" stored_world
           (mkPath "/" ["data"; "files"; "9f2c"]) (staged_keeps_files _ _)).
Defined.

Lemma list_files_read_error_is_wrapped_witness :
  response 200 (list_files (K := storing_lib) "api" empty_world).1
  = (500, Detail [Lit "Could not list files: ";
                  FmtStr "(sqlite3.OperationalError) no such table: index__1__source"]).
Proof.
  exact (proj2 (list_files_read_error_is_wrapped (K := storing_lib) "api" "api"
                  empty_world eq_refl eq_refl)).
Defined.

Lemma list_files_resolution_error_escapes_witness :
  list_files (K := staged not_started) "api" indexed_world
    = (Raise (Uncaught index_not_started), indexed_world) /\
  response 200 (list_files (K := staged not_started) "api" indexed_world).1
    = (500, InternalServerError).
Proof.
  exact (list_files_resolution_error_escapes (K := staged not_started) "api"
           index_not_started indexed_world eq_refl).
Defined.

Lemma alice_table_unique : unique_users [alice].
Proof.
  split; (constructor; [intros [] | constructor]).
Defined.

Lemma create_user_keeps_table_well_formed_witness :
  lower_column_ok
    (main.create_user demo_sha256 (UserCreate.mk "Bob" "hunter2" (Some true))
       "u-2" [alice]).2 /\
  unique_users
    (main.create_user demo_sha256 (UserCreate.mk "Bob" "hunter2" (Some true))
       "u-2" [alice]).2.
Proof.
  exact (create_user_keeps_table_well_formed demo_sha256
           (UserCreate.mk "Bob" "hunter2" (Some true)) "u-2" [alice]
           alice_table_ok alice_table_unique).
Defined.

Lemma create_user_then_same_name_refused_witness :
  main.create_user demo_sha256 (UserCreate.mk "BOB" "letmein" None) "u-3"
      (main.create_user demo_sha256 (UserCreate.mk "Bob" "hunter2" None) "u-2"
         [alice]).2
    = (Raise (HTTPException 400
                [Lit "Username '"; FmtStr "BOB"; Lit "' already exists."]),
       (main.create_user demo_sha256 (UserCreate.mk "Bob" "hunter2" None) "u-2"
          [alice]).2).
Proof.
  exact (create_user_then_same_name_refused demo_sha256
           (UserCreate.mk "Bob" "hunter2" None) "u-2"
           (UserCreate.mk "BOB" "letmein" None) "u-3" [alice]
           (UserRead.mk "u-2" "Bob" false) eq_refl eq_refl).
Defined.

(** The stages leave their names on the standard output in the order they
    ran; a failing handler leaves [finish] out. *)
Example stages_are_traced_in_order :
  stdout (_background_index (K := staged smooth) "f-001" report_tmp "api"
            stored_world).2
    = [[Lit "load_data"]; [Lit "handle_docs"]; [Lit "finish"]] /\
  stdout (_background_index (K := staged handler_down) "f-001" report_tmp "api"
            stored_world).2
    = [[Lit "load_data"]; [Lit "handle_docs"]].
Proof. split; reflexivity. Qed.

(** Two chunks streamed by the LLM arrive as two chat documents. *)
Example stream_two_chunks :
  agen_rag.stream (H := two_chunks) "hi" "conv-1" [("earlier", "turn")]
  = agen_rag.mkGenerated
      [agen_rag.mkDocument "chat" "Hel"; agen_rag.mkDocument "chat" "lo"] None.
Proof. reflexivity. Qed.
